(** * studyinuk-backend: the REST handlers of [server/routes.ts] over the
      storage layer of [server/storage.ts]

    The development follows the source files:
    - [JS]       the JavaScript values the handlers compute with (binary64
                 numbers, [Math.round], truthiness, JSON bodies);
    - [Schema]   the rows of [shared/schema.ts];
    - [Runtime]  a request as state passing over the tables, with the
                 exceptions a query can raise;
    - [Storage]  the methods of [DatabaseStorage];
    - [Routes]   the handlers registered by [registerRoutes];
    - the properties of the specification, one section per operation. *)

From Stdlib Require Import ZArith Floats Ascii String.
From stdpp Require Import gmap strings list pretty.

Set Warnings "-register-all".
Open Scope string_scope.
Open Scope Z_scope.
Open Scope list_scope.

(** ** JavaScript values *)

Module JS.

(** A JavaScript number is a binary64 float.  [number_of_Z] is the
    conversion of an integer (an array length, a row count) to a number:
    exact below 2^53, rounded to nearest-even above. *)
Definition number_of_Z (n : Z) : float :=
  SF2Prim (binary_normalize prec emax n 0 false).

(** [Math.round]: the integer nearest to [x], a tie going towards
    +infinity; NaN and the infinities are returned as they are, and a result
    of zero keeps the sign of [x].  A finite float is [(-1)^s * m * 2^e], so
    the rounding is computed exactly on integers. *)
Definition Math_round (x : float) : float :=
  match Prim2SF x with
  | S754_finite s m e =>
      let num := if s then Z.neg m else Z.pos m in
      let n := if 0 <=? e then num * 2 ^ e
               else (2 * num + 2 ^ (- e)) / 2 ^ (1 - e) in
      if n =? 0 then (if s then (-0)%float else 0%float) else number_of_Z n
  | _ => x
  end.

(** The integer a number denotes, when it denotes one ([Number.isInteger]). *)
Definition integer_of_number (x : float) : option Z :=
  match Prim2SF x with
  | S754_zero _ => Some 0
  | S754_finite s m e =>
      let num := if s then Z.neg m else Z.pos m in
      if 0 <=? e then Some (num * 2 ^ e)
      else if num mod 2 ^ (- e) =? 0 then Some (num / 2 ^ (- e))
      else None
  | _ => None
  end.

(** JSON values of a request body. *)
Inductive JValue : Type :=
  | JNull
  | JBool (b : bool)
  | JNum (x : float)
  | JStr (s : string)
  | JArr (items : list JValue)
  | JObj (fields : list (string * JValue)).

(** [!s] on a string that may be [undefined]: only a present, non-empty
    string is truthy. *)
Definition truthy_string (s : option string) : bool :=
  match s with
  | Some s => negb (String.eqb s "")
  | None => false
  end.

(** [Array.from(new Set(xs))]: the distinct elements of [xs] in the order
    of their first occurrence. *)
Fixpoint set_add (seen : list string) (x : string) : list string :=
  match seen with
  | [] => [x]
  | y :: seen' => if String.eqb y x then seen else y :: set_add seen' x
  end.

Definition distinct (xs : list string) : list string :=
  fold_left set_add xs [].

(** [xs.find(p)] *)
Definition find {A} (p : A -> bool) (xs : list A) : option A := List.find p xs.

End JS.

(** ** Rows of the tables ([shared/schema.ts]) *)

Module Schema.

(** A timestamp is a number of milliseconds; a nullable column is an
    [option]. *)
Definition Timestamp := Z.

Record User := {
    user_id : string;
    user_email : option string;
    firstName : option string;
    lastName : option string;
    isAdmin : option bool;
    user_createdAt : option Timestamp
  }.

Record University := {
    university_id : Z;
    university_name : string;
    city : string;
    country : string
  }.

(** [ieltsOverall] is a [decimal(2,1)] column, which the driver hands over
    as text ("6.5", "7.0"). *)
Record Course := {
    course_id : Z;
    course_name : string;
    universityId : Z;
    level : string;
    faculty : string;
    ieltsOverall : string
  }.

(** A course with its university joined in ([CourseWithUniversity]); the
    join is a left join, so the university may be missing. *)
Record CourseWithUniversity := {
    course : Course;
    university : option University
  }.

Record Application := {
    application_id : Z;
    application_userId : string;
    fullName : string;
    email : string;
    phone : string;
    selectedCourses : list Z;
    additionalNotes : option string;
    status : option string;
    application_createdAt : option Timestamp;
    application_updatedAt : option Timestamp
  }.

Record Notification := {
    notification_id : Z;
    notification_userId : string;
    title : string;
    message : string;
    isRead : option bool;
    type : option string;
    notification_createdAt : option Timestamp
  }.

(** [InsertApplication] and [InsertNotification]: the rows without the
    columns the database fills in.  [None] in a column with a default
    means the column is left out of the insert; [ins_status] tells a
    status left out ([None]) from an explicit [null] ([Some None]). *)
Record InsertApplication := {
    ins_userId : string;
    ins_fullName : string;
    ins_email : string;
    ins_phone : string;
    ins_selectedCourses : list Z;
    ins_additionalNotes : option string;
    ins_status : option (option string)
  }.

Record InsertNotification := {
    new_userId : string;
    new_title : string;
    new_message : string;
    new_type : option string;
    new_isRead : option bool
  }.

End Schema.

(** ** Requests as computations over the database *)

Module Runtime.
Import Schema.

(** The tables, each in the order the database returns its rows when no
    [ORDER BY] is given, and the two [serial] sequences the handlers draw
    from. *)
Record Db := {
    users : list User;
    universities : list University;
    courses : list Course;
    applications : list Application;
    notifications : list Notification;
    applications_seq : Z;
    notifications_seq : Z
  }.

(** The methods of [IStorage] the handlers call, with their arguments. *)
Inductive Call : Type :=
  | GetUser (id : string)
  | GetUsers
  | GetAllApplications
  | GetCourses
  | GetUniversities
  | GetCourseById (id : Z)
  | CreateApplication (a : InsertApplication)
  | UpdateApplicationStatus (id : Z) (new_status : string)
  | CreateNotification (n : InsertNotification)
  | MarkNotificationAsRead (id : Z).

(** What a handler can catch: a query that the database or the connection
    failed, an insert that breaks a foreign key, a body the schema
    refuses. *)
Inductive Error : Type :=
  | QueryFailed
  | ForeignKeyViolation
  | ZodError.

Inductive Result (A : Type) : Type :=
  | Ok (a : A)
  | Throw (e : Error).
Arguments Ok {A} a.
Arguments Throw {A} e.

(** The world of a request: the database, the clock ([Date.now()], [new
    Date()], [defaultNow()]), which storage calls fail ([fails k] is the
    fate of the call number [k], counted from the first one ever made), and
    the storage calls made so far, the latest first. *)
Record World := {
    db : Db;
    now : Timestamp;
    fails : nat -> bool;
    calls : list Call
  }.

(** An [async] computation: it reads and writes the world and either
    returns or throws. *)
Definition M (A : Type) : Type := World -> Result A * World.

Definition ret {A} (a : A) : M A := fun w => (Ok a, w).

Definition throw {A} (e : Error) : M A := fun w => (Throw e, w).

Definition bind {A B} (m : M A) (k : A -> M B) : M B :=
  fun w =>
    match m w with
    | (Ok a, w') => k a w'
    | (Throw e, w') => (Throw e, w')
    end.

(** [try { m } catch (e) { h e }] *)
Definition try_catch {A} (m : M A) (h : Error -> M A) : M A :=
  fun w =>
    match m w with
    | (Ok a, w') => (Ok a, w')
    | (Throw e, w') => h e w'
    end.

Definition record_call (c : Call) (w : World) : World :=
  {| db := db w; now := now w; fails := fails w; calls := c :: calls w |}.

Definition with_db (d : Db) (w : World) : World :=
  {| db := d; now := now w; fails := fails w; calls := calls w |}.

(** One round trip to the database: the call is recorded; when it is one
    that fails it throws and leaves the tables as they were, otherwise the
    statement [q] runs on the tables. *)
Definition query {A} (c : Call) (q : Db -> Timestamp -> Result (A * Db)) : M A :=
  fun w =>
    let w1 := record_call c w in
    if fails w (length (calls w)) then (Throw QueryFailed, w1)
    else match q (db w) (now w) with
         | Ok (a, d) => (Ok a, with_db d w1)
         | Throw e => (Throw e, w1)
         end.

(** A [select]: it leaves the tables alone. *)
Definition select {A} (c : Call) (q : Db -> A) : M A :=
  query c (fun d _ => Ok (q d, d)).

End Runtime.

Notation "x <- m ;; k" := (Runtime.bind m (fun x => k))
  (at level 100, m at next level, right associativity).
Notation "m ;;; k" := (Runtime.bind m (fun _ => k))
  (at level 100, right associativity).

(** ** The storage layer ([server/storage.ts], class [DatabaseStorage]) *)

Module Storage.
Import Schema Runtime.

(** [ORDER BY created_at DESC]: newest first, rows without a timestamp
    before all others (PostgreSQL puts NULLs first in a descending order);
    rows with equal keys keep their table order. *)
Definition desc_before (a b : option Timestamp) : bool :=
  match a, b with
  | None, _ => true
  | Some _, None => false
  | Some x, Some y => y <=? x
  end.

Fixpoint insert_desc {A} (key : A -> option Timestamp) (x : A) (sorted : list A) : list A :=
  match sorted with
  | [] => [x]
  | y :: rest =>
      if desc_before (key x) (key y) then x :: sorted
      else y :: insert_desc key x rest
  end.

Definition order_by_desc {A} (key : A -> option Timestamp) (rows : list A) : list A :=
  foldr (insert_desc key) [] rows.

(** [courses LEFT JOIN universities ON courses.university_id =
    universities.id]: a course row per matching university, and one row
    with no university when none matches. *)
Definition join_universities (us : list University) (c : Course) : list CourseWithUniversity :=
  match List.filter (fun u => university_id u =? universityId c) us with
  | [] => [ {| course := c; university := None |} ]
  | matches => map (fun u => {| course := c; university := Some u |}) matches
  end.

Definition user_exists (d : Db) (id : string) : bool :=
  existsb (fun u => String.eqb (user_id u) id) (users d).

(** The stored record of a user: the first row of [select ... where
    users.id = id]. *)
Definition find_user (d : Db) (id : string) : option User :=
  head (List.filter (fun u => String.eqb (user_id u) id) (users d)).

Definition getUser (id : string) : M (option User) :=
  select (GetUser id) (fun d => find_user d id).

Definition getUniversities : M (list University) :=
  select GetUniversities universities.

(** The query of [getCourses] with its [where] clause: the conjunction of
    [conditions], none when the list is empty. *)
Definition select_courses (conditions : list (Course -> bool)) : M (list CourseWithUniversity) :=
  select GetCourses
    (fun d =>
       flat_map (join_universities (universities d))
         (List.filter (fun c => forallb (fun p => p c) conditions) (courses d))).

(** The first row of the join [where courses.id = id]. *)
Definition course_by_id (d : Db) (id : Z) : option CourseWithUniversity :=
  head (flat_map (join_universities (universities d))
          (List.filter (fun c => course_id c =? id) (courses d))).

Definition getCourseById (id : Z) : M (option CourseWithUniversity) :=
  select (GetCourseById id) (fun d => course_by_id d id).

(** [createApplication]: the insert draws the next id, fills in the
    defaults and returns the created row; the owner must be a user. *)
Definition new_application (d : Db) (t : Timestamp) (a : InsertApplication) : Application :=
  {| application_id := applications_seq d;
     application_userId := ins_userId a;
     fullName := ins_fullName a;
     email := ins_email a;
     phone := ins_phone a;
     selectedCourses := ins_selectedCourses a;
     additionalNotes := ins_additionalNotes a;
     status := default (Some "submitted") (ins_status a);
     application_createdAt := Some t;
     application_updatedAt := Some t |}.

Definition insert_application (d : Db) (created : Application) : Db :=
  {| users := users d; universities := universities d;
     courses := courses d;
     applications := applications d ++ [created];
     notifications := notifications d;
     applications_seq := applications_seq d + 1;
     notifications_seq := notifications_seq d |}.

Definition createApplication (a : InsertApplication) : M Application :=
  query (CreateApplication a)
    (fun d t =>
       if user_exists d (ins_userId a) then
         let created := new_application d t a in
         Ok (created, insert_application d created)
       else Throw ForeignKeyViolation).

Definition set_status (id : Z) (s : string) (t : Timestamp) (a : Application) : Application :=
  if application_id a =? id then
    {| application_id := application_id a;
       application_userId := application_userId a;
       fullName := fullName a;
       email := email a;
       phone := phone a;
       selectedCourses := selectedCourses a;
       additionalNotes := additionalNotes a;
       status := Some s;
       application_createdAt := application_createdAt a;
       application_updatedAt := Some t |}
  else a.

(** [updateApplicationStatus]: [update applications set status, updatedAt
    where id], returning the first updated row ([undefined] when no row
    has the id). *)
Definition updateApplicationStatus (id : Z) (s : string) : M (option Application) :=
  query (UpdateApplicationStatus id s)
    (fun d t =>
       let rows := map (set_status id s t) (applications d) in
       Ok (head (List.filter (fun a => application_id a =? id) rows),
           {| users := users d; universities := universities d;
              courses := courses d;
              applications := rows;
              notifications := notifications d;
              applications_seq := applications_seq d;
              notifications_seq := notifications_seq d |})).

Definition getUsers : M (list User) :=
  select GetUsers (fun d => order_by_desc user_createdAt (users d)).

Definition getAllApplications : M (list Application) :=
  select GetAllApplications (fun d => order_by_desc application_createdAt (applications d)).

(** [createNotification]: as [createApplication]; [isRead] defaults to
    [false] and [type] to "info". *)
Definition new_notification (d : Db) (t : Timestamp) (n : InsertNotification) : Notification :=
  {| notification_id := notifications_seq d;
     notification_userId := new_userId n;
     title := new_title n;
     message := new_message n;
     isRead := Some (default false (new_isRead n));
     type := Some (default "info" (new_type n));
     notification_createdAt := Some t |}.

Definition insert_notification (d : Db) (created : Notification) : Db :=
  {| users := users d; universities := universities d;
     courses := courses d;
     applications := applications d;
     notifications := notifications d ++ [created];
     applications_seq := applications_seq d;
     notifications_seq := notifications_seq d + 1 |}.

Definition createNotification (n : InsertNotification) : M Notification :=
  query (CreateNotification n)
    (fun d t =>
       if user_exists d (new_userId n) then
         let created := new_notification d t n in
         Ok (created, insert_notification d created)
       else Throw ForeignKeyViolation).

Definition set_read (id : Z) (n : Notification) : Notification :=
  if notification_id n =? id then
    {| notification_id := notification_id n;
       notification_userId := notification_userId n;
       title := title n;
       message := message n;
       isRead := Some true;
       type := type n;
       notification_createdAt := notification_createdAt n |}
  else n.

(** [markNotificationAsRead]: [update notifications set isRead = true
    where id]; the method returns nothing, whether or not a row had the
    id. *)
Definition markNotificationAsRead (id : Z) : M unit :=
  query (MarkNotificationAsRead id)
    (fun d _ =>
       Ok (tt,
           {| users := users d; universities := universities d;
              courses := courses d;
              applications := applications d;
              notifications := map (set_read id) (notifications d);
              applications_seq := applications_seq d;
              notifications_seq := notifications_seq d |})).

(** The filters of [getCourses], each possibly [undefined]. *)
Record CourseFilters := {
    search : option string;
    filter_faculty : option string;
    filter_level : option string;
    ieltsScore : option string
  }.

(** [filters?.f && filters.f !== all]: the filter [f] is given, is not the
    empty string and is not the entry [all] of its select box. *)
Definition chosen (all : string) (f : option string) : option string :=
  match f with
  | Some v => if String.eqb v EmptyString || String.eqb v all then None else Some v
  | None => None
  end.

Section GetCourses.

(** What [getCourses] takes from JavaScript and from PostgreSQL:
    [parseFloat] and [Number.prototype.toString], the operator [ILIKE]
    (value, then pattern), and [=] between a [decimal] column and a text
    parameter, which compares the two as numerics.  The number type is
    left open: the method only prints the number back. *)
Variable JsNumber : Type.
Variable parseFloat : string -> JsNumber.
Variable Number_toString : JsNumber -> string.
Variable ilike : string -> string -> bool.
Variable numeric_eq : string -> string -> bool.

Definition search_condition (filters : CourseFilters) : list (Course -> bool) :=
  match chosen EmptyString (search filters) with
  | Some s => [fun c => ilike (course_name c) ("%" +:+ s +:+ "%")]
  | None => []
  end.

Definition faculty_condition (filters : CourseFilters) : list (Course -> bool) :=
  match chosen "All Faculties" (filter_faculty filters) with
  | Some f => [fun c => String.eqb (faculty c) f]
  | None => []
  end.

Definition level_condition (filters : CourseFilters) : list (Course -> bool) :=
  match chosen "All Levels" (filter_level filters) with
  | Some l => [fun c => String.eqb (level c) l]
  | None => []
  end.

Definition ielts_condition (filters : CourseFilters) : list (Course -> bool) :=
  match chosen "All IELTS Scores" (ieltsScore filters) with
  | Some s =>
      let numericScore := parseFloat s in
      [fun c => numeric_eq (ieltsOverall c) (Number_toString numericScore)]
  | None => []
  end.

(** A joined row passes the IELTS condition for [score]. *)
Definition band_is (score : string) (r : CourseWithUniversity) : bool :=
  numeric_eq (ieltsOverall (course r)) (Number_toString (parseFloat score)).

(** The conditions [getCourses] pushes, in its order. *)
Definition conditions (filters : option CourseFilters) : list (Course -> bool) :=
  match filters with
  | Some f =>
      search_condition f ++ faculty_condition f ++ level_condition f ++ ielts_condition f
  | None => []
  end.

Definition getCourses (filters : option CourseFilters) : M (list CourseWithUniversity) :=
  select_courses (conditions filters).

End GetCourses.

End Storage.

(** ** The handlers ([server/routes.ts], [registerRoutes])

    Each handler is the body of its route after [requireAuth]: [userId] is
    [req.user.id].  A route parameter read by [parseInt] is taken as the
    integer it denotes.  Writing to the console is not modelled. *)

Module Routes.
Import JS Schema Runtime Storage.

(** The statistics object of [/api/admin/stats]; the one of
    [/api/admin-dashboard-stats] has no [finalConversionRate]. *)
Record Stats := {
    totalUsers : Z;
    totalApplications : Z;
    totalCourses : Z;
    totalUniversities : Z;
    newUsersThisWeek : Z;
    newApplicationsThisWeek : Z;
    conversionRate : float;
    finalConversionRate : option float
  }.

Record Analytics := {
    userRegistrations : list (option Timestamp * Z);
    applicationSubmissions : list (option Timestamp * Z * option string)
  }.

(** What a handler sends. *)
Inductive Body : Type :=
  | Message (m : string)
  | ErrorMessage (m : string)
  | Success
  | ApplicationBody (a : Application)
  | UpdatedApplication (a : option Application)
  | StatsBody (s : Stats)
  | UsersBody (us : list User)
  | ApplicationsBody (apps : list Application)
  | LeadsBody
  | AnalyticsBody (a : Analytics)
  | Broadcast (m : string) (ns : list Notification).

Record Response := {
    code : Z;
    body : Body
  }.

(** [res.json(b)] and [res.status(c).json(b)] *)
Definition json (b : Body) : Response := {| code := 200; body := b |}.
Definition status_json (c : Z) (b : Body) : Response := {| code := c; body := b |}.

Definition count {A} (l : list A) : Z := Z.of_nat (length l).

(** *** POST /api/applications *)

Definition required_string (o : gmap string JValue) (k : string) : option string :=
  match o !! k with
  | Some (JStr s) => Some s
  | _ => None
  end.

(** A nullable column: the key may be missing ([None]), [null] or a
    string. *)
Definition nullable_string (o : gmap string JValue) (k : string) : option (option (option string)) :=
  match o !! k with
  | None => Some None
  | Some JNull => Some (Some None)
  | Some (JStr s) => Some (Some (Some s))
  | Some _ => None
  end.

Fixpoint integers (items : list JValue) : option (list Z) :=
  match items with
  | [] => Some []
  | JNum x :: rest =>
      match integer_of_number x, integers rest with
      | Some z, Some zs => Some (z :: zs)
      | _, _ => None
      end
  | _ :: _ => None
  end.

Definition integer_array (o : gmap string JValue) (k : string) : option (list Z) :=
  match o !! k with
  | Some (JArr items) => integers items
  | _ => None
  end.

(** [insertApplicationSchema]: the insert schema of the [applications]
    table without [id], [createdAt] and [updatedAt]; keys the schema does
    not know are dropped. *)
Definition insertApplicationSchema_safeParse (o : gmap string JValue) : option InsertApplication :=
  match required_string o "userId", required_string o "fullName",
        required_string o "email", required_string o "phone",
        integer_array o "selectedCourses",
        nullable_string o "additionalNotes", nullable_string o "status" with
  | Some uid, Some name, Some mail, Some tel, Some cs, Some notes, Some st =>
      Some {| ins_userId := uid; ins_fullName := name; ins_email := mail;
              ins_phone := tel; ins_selectedCourses := cs;
              ins_additionalNotes := default None notes;
              ins_status := st |}
  | _, _, _, _, _, _, _ => None
  end.

(** [insertApplicationSchema.parse]: a refused body throws. *)
Definition insertApplicationSchema_parse (o : gmap string JValue) : M InsertApplication :=
  match insertApplicationSchema_safeParse o with
  | Some a => ret a
  | None => throw ZodError
  end.

(** The object the handler parses: [{ ...req.body, userId, status:
    "Submitted" }]. *)
Definition submission (userId : string) (req_body : gmap string JValue) : gmap string JValue :=
  <["status" := JStr "Submitted"]> (<["userId" := JStr userId]> req_body).

Definition dquote : string := String (Ascii.ascii_of_nat 34) EmptyString.

Definition submitted_suffix : string :=
  " has been submitted. A counsellor will contact you within 6 working hours.".

Definition generic_message (application : Application) : string :=
  "Your application #" +:+ pretty (application_id application) +:+ submitted_suffix.

(** The message of the notification: the course and its university when
    the first selected course is found with one, the generic message when no
    course is selected, the course or its university is missing, or the lookup
    throws. *)
Definition notification_message (applicationData : InsertApplication)
    (application : Application) : M string :=
  let generic := generic_message application in
  match ins_selectedCourses applicationData with
  | first :: _ =>
      try_catch
        (courseDetails <- getCourseById first ;;
         match courseDetails with
         | Some {| course := c; university := Some u |} =>
             ret ("Your application to " +:+ dquote +:+ university_name u +:+ dquote
                    +:+ " for " +:+ course_name c +:+ submitted_suffix)
         | _ => ret generic
         end)
        (fun _ => ret generic)
  | [] => ret generic
  end.

(** The [try] block that follows the insert, with its [catch]: a failure
    in it is logged and goes no further. *)
Definition notify_submission (userId : string) (applicationData : InsertApplication)
    (application : Application) : M unit :=
  try_catch
    (notificationMessage <- notification_message applicationData application ;;
     createNotification
       {| new_userId := userId;
          new_title := "Application Submitted Successfully";
          new_message := notificationMessage;
          new_type := Some "application";
          new_isRead := Some false |} ;;;
     ret tt)
    (fun _ => ret tt).

Definition post_applications (userId : string) (req_body : gmap string JValue) : M Response :=
  try_catch
    (applicationData <- insertApplicationSchema_parse (submission userId req_body) ;;
     application <- createApplication applicationData ;;
     notify_submission userId applicationData application ;;;
     ret (json (ApplicationBody application)))
    (fun _ => ret (status_json 500 (Message "Failed to create application"))).

(** *** PATCH /api/notifications/:id/read *)

Definition patch_notification_read (id : Z) : M Response :=
  try_catch
    (markNotificationAsRead id ;;;
     ret (json Success))
    (fun _ => ret (status_json 500 (Message "Failed to mark notification as read"))).

(** *** Statistics *)

(** [Math.round((a / b) * 100)] on two lengths. *)
Definition percentage (a b : Z) : float :=
  Math_round (PrimFloat.mul (PrimFloat.div (number_of_Z a) (number_of_Z b)) 100%float).

(** [new Date(createdAt) > new Date(Date.now() - 7 * 24 * 60 * 60 * 1000)],
    [false] for a row without a timestamp. *)
Definition this_week (t : Timestamp) (createdAt : option Timestamp) : bool :=
  match createdAt with
  | None => false
  | Some c => t - 7 * 24 * 60 * 60 * 1000 <? c
  end.

Definition clock : M Timestamp := fun w => (Ok (now w), w).

(** GET /api/admin-dashboard-stats *)
Definition get_admin_dashboard_stats (userId : string) : M Response :=
  try_catch
    (allUsers <- getUsers ;;
     allApplications <- getAllApplications ;;
     allCourses <- select_courses [] ;;
     allUniversities <- getUniversities ;;
     let stats :=
       {| totalUsers := count allUsers;
          totalApplications := count allApplications;
          totalCourses := count allCourses;
          totalUniversities := count allUniversities;
          newUsersThisWeek := 0;
          newApplicationsThisWeek := 0;
          conversionRate :=
            if 0 <? count allUsers
            then percentage (count allApplications) (count allUsers)
            else 0%float;
          finalConversionRate := None |} in
     ret (json (StatsBody stats)))
    (fun _ => ret (status_json 500 (ErrorMessage "Failed to fetch stats"))).

(** [!currentUser?.isAdmin] is [negb (admin currentUser)]. *)
Definition admin (currentUser : option User) : bool :=
  match currentUser with
  | Some u => default false (isAdmin u)
  | None => false
  end.

Definition forbidden : Response :=
  status_json 403 (Message "Admin access required").

Definition is_visa_approved (a : Application) : bool :=
  match status a with
  | Some s => String.eqb s "Visa Approved"
  | None => false
  end.

(** The statistics object computed from the fetched rows. *)
Definition compute_stats (t : Timestamp) (allUsers : list User)
    (allApplications : list Application) (allCourses : list CourseWithUniversity)
    (allUniversities : list University) : Stats :=
  let usersWithApplications := distinct (map application_userId allApplications) in
  let usersWithVisaApproved :=
    distinct (map application_userId (List.filter is_visa_approved allApplications)) in
  {| totalUsers := count allUsers;
     totalApplications := count allApplications;
     totalCourses := count allCourses;
     totalUniversities := count allUniversities;
     newUsersThisWeek :=
       count (List.filter (fun u => this_week t (user_createdAt u)) allUsers);
     newApplicationsThisWeek :=
       count (List.filter (fun a => this_week t (application_createdAt a)) allApplications);
     conversionRate :=
       if 0 <? count allUsers
       then percentage (count usersWithApplications) (count allUsers)
       else 0%float;
     finalConversionRate :=
       Some (if 0 <? count usersWithApplications
             then percentage (count usersWithVisaApproved) (count usersWithApplications)
             else 0%float) |}.

(** GET /api/admin/stats *)
Definition get_admin_stats (userId : string) : M Response :=
  try_catch
    (currentUser <- getUser userId ;;
     if negb (admin currentUser) then ret forbidden
     else
       allUsers <- getUsers ;;
       allApplications <- getAllApplications ;;
       allCourses <- select_courses [] ;;
       allUniversities <- getUniversities ;;
       t <- clock ;;
       ret (json (StatsBody
                    (compute_stats t allUsers allApplications allCourses allUniversities))))
    (fun _ => ret (status_json 500 (Message "Failed to fetch stats"))).

(** GET /api/admin/users *)
Definition get_admin_users (userId : string) : M Response :=
  try_catch
    (currentUser <- getUser userId ;;
     if negb (admin currentUser) then ret forbidden
     else
       us <- getUsers ;;
       ret (json (UsersBody us)))
    (fun _ => ret (status_json 500 (Message "Failed to fetch users"))).

(** GET /api/admin/applications *)
Definition get_admin_applications (userId : string) : M Response :=
  try_catch
    (currentUser <- getUser userId ;;
     if negb (admin currentUser) then ret forbidden
     else
       apps <- getAllApplications ;;
       ret (json (ApplicationsBody apps)))
    (fun _ => ret (status_json 500 (Message "Failed to fetch applications"))).

(** GET /api/admin/leads *)
Definition get_admin_leads (userId : string) : M Response :=
  try_catch
    (currentUser <- getUser userId ;;
     if negb (admin currentUser) then ret forbidden
     else ret (json LeadsBody))
    (fun _ => ret (status_json 500 (Message "Failed to fetch leads"))).

(** GET /api/admin/analytics *)
Definition get_admin_analytics (userId : string) : M Response :=
  try_catch
    (currentUser <- getUser userId ;;
     if negb (admin currentUser) then ret forbidden
     else
       us <- getUsers ;;
       apps <- getAllApplications ;;
       ret (json (AnalyticsBody
                    {| userRegistrations := map (fun u => (user_createdAt u, 1)) us;
                       applicationSubmissions :=
                         map (fun a => (application_createdAt a, 1, status a)) apps |})))
    (fun _ => ret (status_json 500 (Message "Failed to fetch analytics"))).

(** *** PATCH /api/admin/applications/:id/status *)

(** The course the notification names: the first selected course, with
    its university when there is one, and "your application" otherwise. *)
Definition course_info (application : Application)
    (cs : list CourseWithUniversity) (us : list University) : string :=
  match selectedCourses application with
  | first :: _ =>
      match find (fun c => course_id (course c) =? first) cs with
      | Some c =>
          course_name (course c) +:+
          match find (fun u => university_id u =? universityId (course c)) us with
          | Some u => " at " +:+ university_name u
          | None => EmptyString
          end
      | None => "your application"
      end
  | [] => "your application"
  end.

Definition patch_application_status (userId : string) (applicationId : Z)
    (new_status : option string) : M Response :=
  try_catch
    (currentUser <- getUser userId ;;
     if negb (admin currentUser) then ret forbidden
     else if negb (truthy_string new_status)
     then ret (status_json 400 (Message "Status is required"))
     else
       let st := default EmptyString new_status in
       apps <- getAllApplications ;;
       match find (fun app => application_id app =? applicationId) apps with
       | None => ret (status_json 404 (Message "Application not found"))
       | Some application =>
           updatedApplication <- updateApplicationStatus applicationId st ;;
           cs <- select_courses [] ;;
           us <- getUniversities ;;
           let courseInfo := course_info application cs us in
           createNotification
             {| new_userId := application_userId application;
                new_title := "Application Status Updated";
                new_message :=
                  "Your application status for " +:+ courseInfo
                    +:+ " has been updated to: " +:+ st;
                new_type := Some "application";
                new_isRead := Some false |} ;;;
           ret (json (UpdatedApplication updatedApplication))
       end)
    (fun _ => ret (status_json 500 (Message "Failed to update application status"))).

(** *** POST /api/admin/notifications *)

(** [for (const x of xs) { ys.push(await f(x)) }] *)
Fixpoint for_each {A B} (f : A -> M B) (xs : list A) : M (list B) :=
  match xs with
  | [] => ret []
  | x :: rest =>
      y <- f x ;;
      ys <- for_each f rest ;;
      ret (y :: ys)
  end.

Definition post_admin_notifications (userId : string) (userIds : option (list string))
    (ntype ntitle nmessage : option string) : M Response :=
  try_catch
    (currentUser <- getUser userId ;;
     if negb (admin currentUser) then ret forbidden
     else if negb (truthy_string ntype) || negb (truthy_string ntitle)
             || negb (truthy_string nmessage)
     then ret (status_json 400 (Message "Missing required fields: type, title, message"))
     else
       targetUsers <-
         match userIds with
         | None | Some [] =>
             us <- getUsers ;;
             ret (map user_id us)
         | Some ids => ret ids
         end ;;
       ns <-
         for_each
           (fun id =>
              createNotification
                {| new_userId := id;
                   new_title := default EmptyString ntitle;
                   new_message := default EmptyString nmessage;
                   new_type := ntype;
                   new_isRead := Some false |})
           targetUsers ;;
       ret (json (Broadcast
                    ("Notification sent to " +:+ pretty (count ns) +:+ " users") ns)))
    (fun _ => ret (status_json 500 (Message "Failed to send notification"))).

(** *** The admin routes: those that begin by checking the caller's
    [isAdmin] flag *)

Inductive AdminRequest : Type :=
  | GetAdminStats
  | GetAdminUsers
  | GetAdminApplications
  | GetAdminLeads
  | GetAdminAnalytics
  | PatchApplicationStatus (applicationId : Z) (new_status : option string)
  | PostAdminNotifications (userIds : option (list string))
      (ntype ntitle nmessage : option string).

Definition admin_route (userId : string) (r : AdminRequest) : M Response :=
  match r with
  | GetAdminStats => get_admin_stats userId
  | GetAdminUsers => get_admin_users userId
  | GetAdminApplications => get_admin_applications userId
  | GetAdminLeads => get_admin_leads userId
  | GetAdminAnalytics => get_admin_analytics userId
  | PatchApplicationStatus id st => patch_application_status userId id st
  | PostAdminNotifications ids ty ti me => post_admin_notifications userId ids ty ti me
  end.

End Routes.

(** ** Observations on a run *)

Module Observe.
Import Schema Runtime.

(** The statements that write to a table. *)
Definition is_write (c : Call) : bool :=
  match c with
  | CreateApplication _ | UpdateApplicationStatus _ _
  | CreateNotification _ | MarkNotificationAsRead _ => true
  | _ => false
  end.

Definition writes (cs : list Call) : list Call := List.filter is_write cs.

(** The notifications a run asked the storage to create, the latest
    first. *)
Fixpoint notification_requests (cs : list Call) : list InsertNotification :=
  match cs with
  | [] => []
  | CreateNotification n :: rest => n :: notification_requests rest
  | _ :: rest => notification_requests rest
  end.

(** The reads that list or aggregate a table (all but the lookup of the
    caller's own record). *)
Definition is_listing (c : Call) : bool :=
  match c with
  | GetUsers | GetAllApplications | GetCourses | GetUniversities => true
  | _ => false
  end.

(** The first of the selected courses is found, and with its university. *)
Definition course_resolves (d : Db) (selected : list Z) : bool :=
  match selected with
  | first :: _ =>
      match Storage.course_by_id d first with
      | Some {| university := Some _ |} => true
      | _ => false
      end
  | [] => false
  end.

(** The filters without the IELTS score. *)
Definition without_ielts (f : Storage.CourseFilters) : Storage.CourseFilters :=
  {| Storage.search := Storage.search f;
     Storage.filter_faculty := Storage.filter_faculty f;
     Storage.filter_level := Storage.filter_level f;
     Storage.ieltsScore := None |}.

(** Modelled from the spec: [round(100 * a / b)], the nearest integer with
    a half rounded up, on exact numbers. *)
Definition exact_percentage (a b : Z) : Z := (2 * (100 * a) + b) / (2 * b).

(** [!userIds || userIds.length === 0] *)
Definition no_recipients (userIds : option (list string)) : bool :=
  match userIds with
  | None | Some [] => true
  | Some (_ :: _) => false
  end.

End Observe.

(** ** A reading of the built-ins of [getCourses]

    [getCourses] is stated over [parseFloat], [Number.prototype.toString],
    [ILIKE] and the numeric [=] of PostgreSQL, and its properties hold for
    every choice of them.  To run it on examples this module gives one
    choice, exact on plain decimal literals (an optional sign, digits, an
    optional fraction): a number is kept as the exact decimal it denotes.
    Exponents, [Infinity] and the rounding of long literals to binary64 are
    outside it. *)

Module Builtins.

(** [mantissa / 10 ^ scale], with no trailing zero in the fraction. *)
Inductive Decimal : Type :=
| NaN
| Dec (mantissa : Z) (scale : nat).

Fixpoint normalize (m : Z) (scale : nat) : Decimal :=
  match scale with
  | O => Dec m O
  | S scale' => if m mod 10 =? 0 then normalize (m / 10) scale' else Dec m scale
  end.

Definition digit_value (c : Ascii.ascii) : option Z :=
  let n := Z.of_nat (Ascii.nat_of_ascii c) in
  if (48 <=? n) && (n <=? 57) then Some (n - 48) else None.

(** The digits at the head of [s]: the number read after [acc], how many
    digits were read, and what follows them. *)
Fixpoint read_digits (s : string) (acc : Z) (read : nat) : Z * nat * string :=
  match s with
  | String c rest =>
      match digit_value c with
      | Some d => read_digits rest (10 * acc + d) (S read)
      | None => (acc, read, s)
      end
  | EmptyString => (acc, read, s)
  end.

Definition is_space (c : Ascii.ascii) : bool :=
  let n := Ascii.nat_of_ascii c in
  (n =? 32)%nat || (n =? 9)%nat || (n =? 10)%nat || (n =? 13)%nat.

Fixpoint skip_spaces (s : string) : string :=
  match s with
  | String c rest => if is_space c then skip_spaces rest else s
  | EmptyString => s
  end.

(** The longest decimal literal at the head of [s], after white space;
    [NaN] when there is none.  This stands for [parseFloat] and for the
    reading of a text as a [numeric]. *)
Definition parse_decimal (s : string) : Decimal :=
  let s := skip_spaces s in
  let '(negative, s) :=
    match s with
    | String "-"%char rest => (true, rest)
    | String "+"%char rest => (false, rest)
    | _ => (false, s)
    end in
  let '(int_part, int_digits, rest) := read_digits s 0 O in
  let '(all, frac_digits) :=
    match rest with
    | String "."%char rest' =>
        let '(m, n, _) := read_digits rest' int_part O in (m, n)
    | _ => (int_part, O)
    end in
  match int_digits, frac_digits with
  | O, O => NaN
  | _, _ => normalize (if negative then - all else all) frac_digits
  end.

Definition digit_char (d : Z) : Ascii.ascii := Ascii.ascii_of_nat (48 + Z.to_nat d).

(** The last [width] digits of [n], before [acc]. *)
Fixpoint fixed_digits (width : nat) (n : Z) (acc : string) : string :=
  match width with
  | O => acc
  | S width' => fixed_digits width' (n / 10) (String (digit_char (n mod 10)) acc)
  end.

(** The decimal notation of a number, which stands for
    [Number.prototype.toString]. *)
Definition decimal_to_string (x : Decimal) : string :=
  match x with
  | NaN => "NaN"
  | Dec m scale =>
      let a := Z.abs m in
      let sign := if m <? 0 then "-" else EmptyString in
      let int_part := pretty (a / 10 ^ Z.of_nat scale) in
      match scale with
      | O => sign +:+ int_part
      | _ => sign +:+ int_part +:+ "." +:+ fixed_digits scale a EmptyString
      end
  end.

Definition decimal_eqb (x y : Decimal) : bool :=
  match x, y with
  | NaN, NaN => true
  | Dec m s, Dec m' s' => (m =? m') && (s =? s')%nat
  | _, _ => false
  end.

(** [column = $1] on a numeric column: both texts are read as numerics. *)
Definition numeric_eq (column parameter : string) : bool :=
  decimal_eqb (parse_decimal column) (parse_decimal parameter).

Definition lower (c : Ascii.ascii) : Ascii.ascii :=
  let n := Ascii.nat_of_ascii c in
  if (65 <=? n)%nat && (n <=? 90)%nat then Ascii.ascii_of_nat (n + 32) else c.

(** [LIKE]: [%] matches any run of characters and [_] any one. *)
Fixpoint like (pattern : list Ascii.ascii) : list Ascii.ascii -> bool :=
  match pattern with
  | [] => fun value => match value with [] => true | _ => false end
  | p :: pattern' =>
      if Ascii.eqb p "%"%char then
        fix any (value : list Ascii.ascii) : bool :=
          like pattern' value
          || match value with
             | [] => false
             | _ :: value' => any value'
             end
      else
        fun value =>
          match value with
          | [] => false
          | c :: value' => (Ascii.eqb p "_"%char || Ascii.eqb p c) && like pattern' value'
          end
  end.

(** [value ILIKE pattern] *)
Definition ilike (value pattern : string) : bool :=
  like (map lower (list_ascii_of_string pattern)) (map lower (list_ascii_of_string value)).

(** [getCourses] with these built-ins. *)
Definition getCourses : option Storage.CourseFilters -> Runtime.M (list Schema.CourseWithUniversity) :=
  Storage.getCourses Decimal parse_decimal decimal_to_string ilike numeric_eq.

End Builtins.

(** ** Sample data *)

Module Sample.
Import JS Schema Runtime Storage Routes.

Definition user (id : string) (adm : option bool) (t : Timestamp) : User :=
  {| user_id := id; user_email := None; firstName := None; lastName := None;
     isAdmin := adm; user_createdAt := Some t |}.

Definition oxford : University :=
  {| university_id := 1; university_name := "University of Oxford";
     city := "Oxford"; country := "United Kingdom" |}.

Definition engineering : Course :=
  {| course_id := 3; course_name := "MSc Engineering Management"; universityId := 1;
     level := "Masters"; faculty := "Engineering"; ieltsOverall := "6.5" |}.

Definition law : Course :=
  {| course_id := 4; course_name := "Master of Laws (LLM)"; universityId := 1;
     level := "Masters"; faculty := "Law"; ieltsOverall := "7.0" |}.

Definition application_of (id : Z) (owner : string) (st : string) : Application :=
  {| application_id := id; application_userId := owner; fullName := "Alice";
     email := "alice@example.org"; phone := "+8801712345678";
     selectedCourses := [3]; additionalNotes := None; status := Some st;
     application_createdAt := Some 500; application_updatedAt := Some 500 |}.

Definition unread (id : Z) (owner : string) (r : bool) : Notification :=
  {| notification_id := id; notification_userId := owner; title := "Welcome";
     message := "Hello"; isRead := Some r; type := Some "info";
     notification_createdAt := Some 600 |}.

(** An admin, two plain users (one with a [null] flag), one application
    and one read notification. *)
Definition tables : Db :=
  {| users := [user "admin" (Some true) 10; user "alice" (Some false) 20;
               user "bob" None 30];
     universities := [oxford];
     courses := [engineering; law];
     applications := [application_of 1 "alice" "Submitted"];
     notifications := [unread 1 "alice" true];
     applications_seq := 2;
     notifications_seq := 2 |}.

(** A request at time 1000 in which the storage calls numbered in
    [failing] fail. *)
Definition world (failing : list nat) : World :=
  {| db := tables; now := 1000;
     fails := fun k => existsb (Nat.eqb k) failing;
     calls := [] |}.

(** The body of a submission for the course 3, the data the schema reads
    from it for alice, and the application the first insert creates. *)
Definition submission_body : gmap string JValue :=
  <["fullName" := JStr "Alice"]>
    (<["email" := JStr "alice@example.org"]>
      (<["phone" := JStr "+8801712345678"]>
        (<["selectedCourses" := JArr [JNum 3%float]]> ∅))).

(** [n] users u1 .. un, none of them an admin, and one application, with
    the status [st], for each of the first [n]. *)
Definition crowd (n : nat) : list User :=
  map (fun i => user ("u" +:+ pretty i) (Some false) (Z.of_nat i)) (seq 1 n).

Definition applicants (n : nat) (st : string) : list Application :=
  map (fun i => application_of (Z.of_nat i) ("u" +:+ pretty i) st) (seq 1 n).

(** Tables with the admin and [n] more users, of whom the first [approved]
    have an application with the status "Visa Approved" and the next [waiting]
    one with the status "Submitted". *)
Definition population (n approved waiting : nat) : Db :=
  {| users := user "admin" (Some true) 0 :: crowd n;
     universities := [oxford];
     courses := [engineering; law];
     applications :=
       applicants approved "Visa Approved"
       ++ map (fun i => application_of (Z.of_nat i) ("u" +:+ pretty i) "Submitted")
            (seq (S approved) waiting);
     notifications := [];
     applications_seq := Z.of_nat (S (approved + waiting));
     notifications_seq := 1 |}.

Definition request_on (d : Db) : World :=
  {| db := d; now := 1000; fails := fun _ => false; calls := [] |}.

(** The query [/api/courses?ieltsScore=score]. *)
Definition by_ielts (score : string) : CourseFilters :=
  {| search := None; filter_faculty := None; filter_level := None;
     ieltsScore := Some score |}.

Definition submitted_data : InsertApplication :=
  {| ins_userId := "alice"; ins_fullName := "Alice";
     ins_email := "alice@example.org"; ins_phone := "+8801712345678";
     ins_selectedCourses := [3]; ins_additionalNotes := None;
     ins_status := Some (Some "Submitted") |}.

Definition submitted : Application :=
  {| application_id := 2; application_userId := "alice"; fullName := "Alice";
     email := "alice@example.org"; phone := "+8801712345678";
     selectedCourses := [3]; additionalNotes := None; status := Some "Submitted";
     application_createdAt := Some 1000; application_updatedAt := Some 1000 |}.

End Sample.

(** ** Favorites ([server/routes.ts], the routes under /api/favorites)

    The favorites live in one [Map] of the process, keyed by the text of the
    course id and shared by every caller.  A handler takes the map and
    returns it with its answer.  The handlers have no [try]: a storage call
    that throws makes the handler throw. *)

Module Favorites.
Import JS Schema Runtime Storage.

Record Favorite := {
  favorite_id : Timestamp;
  favorite_courseId : Z;
  favorite_course : CourseWithUniversity
}.

(** A [Map] with string keys: its entries in the order of insertion. *)
Definition Store : Type := list (string * Favorite).

(** [m.set(k, v)]: the value of an existing key is replaced where it
    stands, a new key goes last. *)
Fixpoint Map_set (m : Store) (k : string) (v : Favorite) : Store :=
  match m with
  | [] => [(k, v)]
  | (k', v') :: rest =>
      if String.eqb k' k then (k, v) :: rest else (k', v') :: Map_set rest k v
  end.

(** [m.has(k)] *)
Definition Map_has (m : Store) (k : string) : bool :=
  existsb (fun e => String.eqb (fst e) k) m.

(** [m.delete(k)]: whether the key was there, and the map without it. *)
Definition Map_delete (m : Store) (k : string) : bool * Store :=
  (Map_has m k, List.filter (fun e => negb (String.eqb (fst e) k)) m).

(** [Array.from(m.values())] and [Array.from(m.keys())] *)
Definition Map_values (m : Store) : list Favorite := map snd m.
Definition Map_keys (m : Store) : list string := map fst m.

Inductive ReplyBody : Type :=
| FavoritesList (fs : list Favorite)
| FavoriteCreated (f : Favorite)
| CourseNotFound
| Removed (deleted : bool)
| IsFavorite (b : bool).

Record Reply := {
  reply_code : Z;
  reply_body : ReplyBody
}.

(** GET /api/favorites *)
Definition get_favorites (favoritesStore : Store) : M (Reply * Store) :=
  Runtime.ret ({| reply_code := 200; reply_body := FavoritesList (Map_values favoritesStore) |},
               favoritesStore).

(** POST /api/favorites: [key] is [courseId.toString()] and [courseId] the
    integer that [parseInt] reads from the [courseId] of the body; the id of
    the favorite is [Date.now()]. *)
Definition post_favorites (favoritesStore : Store) (key : string) (courseId : Z)
    : M (Reply * Store) :=
  course <- getCourseById courseId ;;
  match course with
  | Some c =>
      t <- Routes.clock ;;
      let favorite :=
        {| favorite_id := t; favorite_courseId := courseId; favorite_course := c |} in
      Runtime.ret ({| reply_code := 201; reply_body := FavoriteCreated favorite |},
                   Map_set favoritesStore key favorite)
  | None =>
      Runtime.ret ({| reply_code := 404; reply_body := CourseNotFound |}, favoritesStore)
  end.

(** DELETE /api/favorites/:courseId, on the text of the route parameter *)
Definition delete_favorite (favoritesStore : Store) (courseId : string) : M (Reply * Store) :=
  let '(deleted, rest) := Map_delete favoritesStore courseId in
  Runtime.ret ({| reply_code := 200; reply_body := Removed deleted |}, rest).

(** GET /api/favorites/check/:courseId *)
Definition check_favorite (favoritesStore : Store) (courseId : string) : M (Reply * Store) :=
  Runtime.ret ({| reply_code := 200; reply_body := IsFavorite (Map_has favoritesStore courseId) |},
               favoritesStore).

End Favorites.


(** ** The admin middleware ([server/adminAuth.ts]) *)

Module AdminAuth.
Import JS Schema Runtime Storage Routes.

(** [req.adminUser] *)
Record AdminUser := {
  adminUser_userId : string;
  adminUser_email : option string;
  adminUser_isAdmin : bool
}.

(** What the middleware reads and writes of a request: [req.user?.id] and
    [req.adminUser]. *)
Record Request := {
  req_user_id : option string;
  req_adminUser : option AdminUser
}.

(** A middleware either ends the request with a response or calls
    [next()] on the request. *)
Definition Next : Type := (Response + Request)%type.

(** [isAdmin] *)
Definition isAdmin (req : Request) : M Next :=
  try_catch
    (if negb (truthy_string (req_user_id req))
     then Runtime.ret (inl (status_json 401 (Message "Unauthorized")))
     else
       let userId := default EmptyString (req_user_id req) in
       user <- getUser userId ;;
       match user with
       | None =>
           Runtime.ret (inl (status_json 403 (Message "Access denied. User not found.")))
       | Some u =>
           if negb (default false (Schema.isAdmin u))
           then Runtime.ret
                  (inl (status_json 403 (Message "Access denied. Admin privileges required.")))
           else
             Runtime.ret
               (inr {| req_user_id := req_user_id req;
                       req_adminUser :=
                         Some {| adminUser_userId := userId;
                                 adminUser_email := user_email u;
                                 adminUser_isAdmin := true |} |})
       end)
    (fun _ => Runtime.ret (inl (status_json 500 (Message "Internal server error")))).

(** [requireAdmin] *)
Definition requireAdmin (req : Request) : Next :=
  match req_adminUser req with
  | Some a =>
      if adminUser_isAdmin a then inr req
      else inl (status_json 403 (Message "Admin authentication required"))
  | None => inl (status_json 403 (Message "Admin authentication required"))
  end.

End AdminAuth.

(** ** Text the handlers compute

    Strings are sequences of ASCII characters: [toLowerCase] maps A-Z to a-z
    and leaves every other character alone. *)

Module Text.

Definition is_upper (c : Ascii.ascii) : bool :=
  let n := Ascii.nat_of_ascii c in (65 <=? n)%nat && (n <=? 90)%nat.

Definition is_lower (c : Ascii.ascii) : bool :=
  let n := Ascii.nat_of_ascii c in (97 <=? n)%nat && (n <=? 122)%nat.

Definition is_digit (c : Ascii.ascii) : bool :=
  let n := Ascii.nat_of_ascii c in (48 <=? n)%nat && (n <=? 57)%nat.

Definition lower_char (c : Ascii.ascii) : Ascii.ascii :=
  if is_upper c then Ascii.ascii_of_nat (Ascii.nat_of_ascii c + 32) else c.

(** [s.toLowerCase()] *)
Fixpoint toLowerCase (s : string) : string :=
  match s with
  | EmptyString => EmptyString
  | String c rest => String (lower_char c) (toLowerCase rest)
  end.

(** [s.replace(/[^a-z0-9]+/g, '-')]: every maximal run of characters other
    than a-z and 0-9 becomes one hyphen.  [in_run] tells that the character
    before was in such a run. *)
Fixpoint replace_runs (s : string) (in_run : bool) : string :=
  match s with
  | EmptyString => EmptyString
  | String c rest =>
      if is_lower c || is_digit c then String c (replace_runs rest false)
      else if in_run then replace_runs rest true
      else String "-"%char (replace_runs rest true)
  end.

(** The last segment of the URL of a course or university in the sitemap
    (GET /api/sitemap.xml): [name.toLowerCase().replace(/[^a-z0-9]+/g, '-')]. *)
Definition slug (name : string) : string := replace_runs (toLowerCase name) false.

(** [s.split(' ')]: the pieces between the spaces, one more than there are
    spaces. *)
Fixpoint split_spaces (s : string) : list string :=
  match s with
  | EmptyString => [EmptyString]
  | String c rest =>
      if Ascii.eqb c " "%char then EmptyString :: split_spaces rest
      else match split_spaces rest with
           | piece :: pieces => String c piece :: pieces
           | [] => [String c EmptyString]
           end
  end.

(** [pieces.join(' ')] *)
Fixpoint join_spaces (pieces : list string) : string :=
  match pieces with
  | [] => EmptyString
  | [piece] => piece
  | piece :: rest => piece +:+ " " +:+ join_spaces rest
  end.

(** [s || null] *)
Definition or_null (s : string) : option string :=
  if String.eqb s EmptyString then None else Some s.

(** The names [requireAuth] ([server/supabaseAuth.ts]) gives a new user,
    from the [full_name] of the identity provider, which may be missing:
    [full_name?.split(' ')[0] || null] and
    [full_name?.split(' ').slice(1).join(' ') || null]. *)
Definition firstName_of (full_name : option string) : option string :=
  match full_name with
  | Some s => or_null (hd EmptyString (split_spaces s))
  | None => None
  end.

Definition lastName_of (full_name : option string) : option string :=
  match full_name with
  | Some s => or_null (join_spaces (tl (split_spaces s)))
  | None => None
  end.

(** A string with no two hyphens in a row. *)
Fixpoint single_hyphens (s : string) : bool :=
  match s with
  | String c ((String d _) as rest) =>
      negb (Ascii.eqb c "-"%char && Ascii.eqb d "-"%char) && single_hyphens rest
  | _ => true
  end.

(** Every character is one of a-z, 0-9 and the hyphen. *)
Fixpoint slug_chars (s : string) : bool :=
  match s with
  | EmptyString => true
  | String c rest => (is_lower c || is_digit c || Ascii.eqb c "-"%char) && slug_chars rest
  end.

Definition starts_with_hyphen (s : string) : bool :=
  match s with
  | String c _ => Ascii.eqb c "-"%char
  | EmptyString => false
  end.

Fixpoint has_space (s : string) : bool :=
  match s with
  | EmptyString => false
  | String c rest => Ascii.eqb c " "%char || has_space rest
  end.

End Text.

(** ** The catalog routes ([server/routes.ts]: /api/courses,
    /api/courses/:id, /api/universities) *)

Module Catalog.
Import JS Schema Runtime Storage.

Inductive CatalogBody : Type :=
| CoursesBody (cs : list CourseWithUniversity)
| CourseBody (c : CourseWithUniversity)
| UniversitiesBody (us : list University)
| Failure (m : string).

Record CatalogResponse := {
  catalog_code : Z;
  catalog_body : CatalogBody
}.

Section CourseRoutes.

Variable JsNumber : Type.
Variable parseFloat : string -> JsNumber.
Variable Number_toString : JsNumber -> string.
Variable ilike : string -> string -> bool.
Variable numeric_eq : string -> string -> bool.

(** GET /api/courses: the four filters are the query parameters of the
    same names, each possibly missing. *)
Definition get_courses (search faculty level ieltsScore : option string) : M CatalogResponse :=
  try_catch
    (let filters :=
       {| Storage.search := search; filter_faculty := faculty; filter_level := level;
          Storage.ieltsScore := ieltsScore |} in
     courses <- getCourses JsNumber parseFloat Number_toString ilike numeric_eq (Some filters) ;;
     Runtime.ret {| catalog_code := 200; catalog_body := CoursesBody courses |})
    (fun _ => Runtime.ret {| catalog_code := 500;
                             catalog_body := Failure "Failed to fetch courses" |}).

End CourseRoutes.

(** GET /api/courses/:id *)
Definition get_course (id : Z) : M CatalogResponse :=
  try_catch
    (course <- getCourseById id ;;
     match course with
     | None => Runtime.ret {| catalog_code := 404; catalog_body := Failure "Course not found" |}
     | Some c => Runtime.ret {| catalog_code := 200; catalog_body := CourseBody c |}
     end)
    (fun _ => Runtime.ret {| catalog_code := 500;
                             catalog_body := Failure "Failed to fetch course" |}).

(** GET /api/universities *)
Definition get_universities : M CatalogResponse :=
  try_catch
    (universities <- getUniversities ;;
     Runtime.ret {| catalog_code := 200; catalog_body := UniversitiesBody universities |})
    (fun _ => Runtime.ret {| catalog_code := 500;
                             catalog_body := Failure "Failed to fetch universities" |}).

End Catalog.

(** ** The inbox of a user ([server/storage.ts]: [getUserNotifications],
    [getUnreadNotificationCount])

    The rows the two queries select on given tables. *)

Module Inbox.
Import JS Schema Runtime Storage.

(** [where notifications.userId = userId order by createdAt desc] *)
Definition getUserNotifications (d : Db) (userId : string) : list Notification :=
  order_by_desc notification_createdAt
    (List.filter (fun n => String.eqb (notification_userId n) userId) (notifications d)).

(** [notifications.isRead = false]: a row whose flag is [null] is not
    selected. *)
Definition is_unread (n : Notification) : bool :=
  match isRead n with
  | Some r => negb r
  | None => false
  end.

(** [where notifications.userId = userId and notifications.isRead = false],
    and the length of the result. *)
Definition getUnreadNotificationCount (d : Db) (userId : string) : Z :=
  Routes.count
    (List.filter (fun n => String.eqb (notification_userId n) userId && is_unread n)
       (notifications d)).

End Inbox.

(** ** The applications of a user ([server/storage.ts]:
    [getUserApplications])

    The rows the method returns on given tables: the applications of the
    user, newest first, each with the details of its selected courses. *)

Module Listing.
Import JS Schema Runtime Storage.

(** [{ id, name, universityName }] *)
Record CourseDetail := {
  detail_id : Z;
  detail_name : string;
  detail_universityName : option string
}.

(** [select { id, name, universityName } from courses left join universities
    where courses.id in (selected)] *)
Definition courseDetails (d : Db) (selected : list Z) : list CourseDetail :=
  map (fun r =>
         {| detail_id := course_id (course r);
            detail_name := course_name (course r);
            detail_universityName := option_map university_name (university r) |})
    (flat_map (join_universities (universities d))
       (List.filter (fun c => existsb (Z.eqb (course_id c)) selected) (courses d))).

Definition getUserApplications (d : Db) (userId : string)
    : list (Application * list CourseDetail) :=
  map (fun app =>
         match selectedCourses app with
         | [] => (app, [])
         | selected => (app, courseDetails d selected)
         end)
    (order_by_desc application_createdAt
       (List.filter (fun a => String.eqb (application_userId a) userId) (applications d))).

(** [a] may stand before [b] in a descending order. *)
Definition newest_first {A} (key : A -> option Timestamp) (a b : A) : Prop :=
  desc_before (key a) (key b) = true.

End Listing.

(** ** More sample data *)

Module Cases.
Import JS Schema Runtime Storage Routes.

(** A favorite for the engineering course. *)
Definition favorite : Favorites.Favorite :=
  {| Favorites.favorite_id := 1000; Favorites.favorite_courseId := 3;
     Favorites.favorite_course :=
       {| course := Sample.engineering; university := Some Sample.oxford |} |}.

(** Tables in which alice has one read and two unread notifications and
    bob one unread. *)
Definition inbox : Db :=
  {| users := users Sample.tables;
     universities := universities Sample.tables;
     courses := courses Sample.tables;
     applications := applications Sample.tables;
     notifications := [Sample.unread 1 "alice" true; Sample.unread 7 "alice" false;
                       Sample.unread 8 "bob" false; Sample.unread 9 "alice" false];
     applications_seq := 2;
     notifications_seq := 10 |}.

(** Tables in which alice has three applications: for the courses 3, 4 and
    a course 99 that does not exist; for no course; and for the course 3 and a
    course 77 that does not exist. *)
Definition application_for (id : Z) (owner : string) (selected : list Z) (t : Timestamp)
    : Application :=
  {| application_id := id; application_userId := owner; fullName := "Alice";
     email := "alice@example.org"; phone := "+8801712345678";
     selectedCourses := selected; additionalNotes := None; status := Some "Submitted";
     application_createdAt := Some t; application_updatedAt := Some t |}.

Definition portfolio : Db :=
  {| users := users Sample.tables;
     universities := universities Sample.tables;
     courses := courses Sample.tables;
     applications := [application_for 1 "alice" [4; 99; 3] 100;
                      application_for 2 "bob" [4] 150;
                      application_for 3 "alice" [] 200;
                      application_for 4 "alice" [77; 3] 300];
     notifications := [];
     applications_seq := 5;
     notifications_seq := 1 |}.

(** Tables read nine hundred million milliseconds after the epoch, when a
    week ago is 295200000: of the four users one was created before that
    moment, one exactly at it, one after it and one has no timestamp; of the
    two applications one is older than a week; one of the three courses
    names a university that is not there. *)
Definition week_tables : Db :=
  {| users := [Sample.user "admin" (Some true) 10;
               Sample.user "carol" (Some false) 295200000;
               Sample.user "alice" (Some false) 800000000;
               {| user_id := "bob"; user_email := None; firstName := None;
                  lastName := None; isAdmin := None; user_createdAt := None |}];
     universities := [Sample.oxford];
     courses := [Sample.engineering; Sample.law;
                 {| course_id := 5; course_name := "MSc Data Science"; universityId := 2;
                    level := "Masters"; faculty := "Science"; ieltsOverall := "6.5" |}];
     applications := [application_for 1 "alice" [3] 500;
                      application_for 2 "alice" [4] 850000000];
     notifications := [];
     applications_seq := 3;
     notifications_seq := 1 |}.

Definition week : World :=
  {| db := week_tables; now := 900000000; fails := fun _ => false; calls := [] |}.

End Cases.

(** * Properties *)

Import JS Schema Runtime Storage Routes Observe.

(** ** Running a computation step by step *)

Lemma bind_ok {A B} (m : M A) (k : A -> M B) w a w' :
  m w = (Ok a, w') -> bind m k w = k a w'.
Proof. intros H. unfold bind. now rewrite H. Qed.

Lemma bind_throw {A B} (m : M A) (k : A -> M B) w e w' :
  m w = (Throw e, w') -> bind m k w = (Throw e, w').
Proof. intros H. unfold bind. now rewrite H. Qed.

Lemma try_catch_ok {A} (m : M A) h w a w' :
  m w = (Ok a, w') -> try_catch m h w = (Ok a, w').
Proof. intros H. unfold try_catch. now rewrite H. Qed.

Lemma try_catch_throw {A} (m : M A) h w e w' :
  m w = (Throw e, w') -> try_catch m h w = h e w'.
Proof. intros H. unfold try_catch. now rewrite H. Qed.

Lemma query_fails {A} c (q : Db -> Timestamp -> Result (A * Db)) w :
  fails w (length (calls w)) = true ->
  query c q w = (Throw QueryFailed, record_call c w).
Proof. intros H. unfold query. now rewrite H. Qed.

Lemma select_ok {A} c (q : Db -> A) w :
  fails w (length (calls w)) = false ->
  select c q w = (Ok (q (db w)), record_call c w).
Proof. intros H. unfold select, query. now rewrite H. Qed.

Lemma query_ok {A} c (q : Db -> Timestamp -> Result (A * Db)) w a d :
  fails w (length (calls w)) = false ->
  q (db w) (now w) = Ok (a, d) ->
  query c q w = (Ok a, with_db d (record_call c w)).
Proof. intros H Hq. unfold query. now rewrite H, Hq. Qed.

(** ** Ordered listings *)

Lemma insert_desc_Permutation {A} (key : A -> option Timestamp) x l :
  Permutation (insert_desc key x l) (x :: l).
Proof.
  induction l as [|y l IH]; cbn [insert_desc]; [reflexivity|].
  destruct (desc_before (key x) (key y)); [reflexivity|].
  rewrite IH. apply perm_swap.
Qed.

Lemma order_by_desc_Permutation {A} (key : A -> option Timestamp) l :
  Permutation (order_by_desc key l) l.
Proof.
  induction l as [|x l IH]; cbn; [reflexivity|].
  fold (order_by_desc key l).
  rewrite insert_desc_Permutation. now rewrite IH.
Qed.

Lemma order_by_desc_In {A} (key : A -> option Timestamp) l x :
  In x (order_by_desc key l) <-> In x l.
Proof.
  split; apply Permutation_in; [|symmetry]; apply order_by_desc_Permutation.
Qed.

Lemma order_by_desc_length {A} (key : A -> option Timestamp) l :
  length (order_by_desc key l) = length l.
Proof. apply Permutation_length, order_by_desc_Permutation. Qed.

Lemma find_absent {A} (p : A -> bool) l :
  (forall a, In a l -> p a = false) -> find p l = None.
Proof.
  unfold find. induction l as [|x l IH]; intros H; cbn; [reflexivity|].
  rewrite (H x (or_introl eq_refl)). apply IH. intros a Ha. apply H. now right.
Qed.

Lemma find_present {A} (p : A -> bool) l a :
  In a l -> p a = true -> exists b, find p l = Some b /\ In b l /\ p b = true.
Proof.
  unfold find. induction l as [|x l IH]; intros Hin Hp; [destruct Hin|].
  cbn. destruct (p x) eqn:Hx.
  - exists x. split; [reflexivity|]. split; [now left | exact Hx].
  - destruct Hin as [->|Hin]; [congruence|].
    destruct (IH Hin Hp) as (b & Hb & Hbin & Hpb).
    exists b. split; [exact Hb|]. split; [now right | exact Hpb].
Qed.

(** ** The storage methods on a call that does not fail *)

Lemma getAllApplications_ok w :
  fails w (length (calls w)) = false ->
  getAllApplications w
  = (Ok (order_by_desc application_createdAt (applications (db w))),
     record_call GetAllApplications w).
Proof. apply select_ok. Qed.

Lemma getUsers_ok w :
  fails w (length (calls w)) = false ->
  getUsers w
  = (Ok (order_by_desc user_createdAt (users (db w))), record_call GetUsers w).
Proof. apply select_ok. Qed.

Lemma getUser_ok uid w :
  fails w (length (calls w)) = false ->
  getUser uid w = (Ok (find_user (db w) uid), record_call (GetUser uid) w).
Proof. apply select_ok. Qed.

(** ** Admin routes *)

(** C7: when the stored record of the caller lacks the admin flag (or there
    is no record), every admin route answers with status 403 and the body
    [{ message: "Admin access required" }], after the lookup of that record
    and nothing else: the tables are untouched and no listing or aggregation
    query is made. *)
Theorem admin_route_forbidden uid r w :
  fails w (length (calls w)) = false ->
  admin (find_user (db w) uid) = false ->
  admin_route uid r w
  = (Ok {| code := 403; body := Message "Admin access required" |},
     record_call (GetUser uid) w).
Proof.
  intros Hok Hflag.
  destruct r; cbn [admin_route];
    [ unfold get_admin_stats | unfold get_admin_users
    | unfold get_admin_applications | unfold get_admin_leads
    | unfold get_admin_analytics | unfold patch_application_status
    | unfold post_admin_notifications ];
    apply try_catch_ok;
    rewrite (bind_ok _ _ _ _ _ (getUser_ok uid w Hok));
    rewrite Hflag; reflexivity.
Qed.

Lemma admin_route_forbidden_witness :
  admin_route "alice" GetAdminStats (Sample.world [])
  = (Ok {| code := 403; body := Message "Admin access required" |},
     record_call (GetUser "alice") (Sample.world []))
  /\ List.filter is_listing (calls (record_call (GetUser "alice") (Sample.world []))) = [].
Proof.
  split; [ | reflexivity ].
  apply (admin_route_forbidden "alice" GetAdminStats (Sample.world [])); reflexivity.
Defined.

(** ** PATCH /api/admin/applications/:id/status *)

Lemma set_status_id id st t a :
  application_id (set_status id st t a) = application_id a.
Proof. unfold set_status. now destruct (application_id a =? id). Qed.

Lemma set_status_hit id st t a :
  application_id a = id ->
  status (set_status id st t a) = Some st
  /\ application_updatedAt (set_status id st t a) = Some t.
Proof. intros H. unfold set_status. rewrite (proj2 (Z.eqb_eq _ _) H). now split. Qed.

(** C3, as the code has it: for an id that no application has, a call by
    an admin writes nothing (no status change, no notification), whatever it
    answers; it answers 404 when a non-empty status came with the request and
    the listing of the applications succeeded, 400 when the status is missing
    or empty, and 500 when the listing failed. *)
Theorem patch_status_unknown_id uid id st w :
  fails w (length (calls w)) = false ->
  admin (find_user (db w) uid) = true ->
  (forall a, In a (applications (db w)) -> application_id a <> id) ->
  exists r w',
    patch_application_status uid id st w = (Ok r, w')
    /\ db w' = db w
    /\ writes (calls w') = writes (calls w)
    /\ (truthy_string st = false -> r = status_json 400 (Message "Status is required"))
    /\ (truthy_string st = true -> fails w (S (length (calls w))) = false ->
        r = status_json 404 (Message "Application not found"))
    /\ (truthy_string st = true -> fails w (S (length (calls w))) = true ->
        r = status_json 500 (Message "Failed to update application status")).
Proof.
  intros Hok Hadmin Hnone.
  unfold patch_application_status.
  destruct (truthy_string st) eqn:Hst.
  - destruct (fails w (S (length (calls w)))) eqn:Hlist.
    + eexists _, _. split.
      { erewrite try_catch_throw; [reflexivity|].
        rewrite (bind_ok _ _ _ _ _ (getUser_ok uid w Hok)).
        rewrite Hadmin. cbn [negb].
        apply bind_throw. apply query_fails. exact Hlist. }
      cbn. repeat split; congruence.
    + eexists _, _. split.
      { apply try_catch_ok.
        rewrite (bind_ok _ _ _ _ _ (getUser_ok uid w Hok)).
        rewrite Hadmin. cbn [negb].
        erewrite bind_ok; [|apply getAllApplications_ok; exact Hlist].
        rewrite find_absent; [reflexivity|].
        intros a Ha. apply order_by_desc_In in Ha. apply Z.eqb_neq. now apply Hnone. }
      cbn. repeat split; congruence.
  - eexists _, _. split.
    { apply try_catch_ok.
      rewrite (bind_ok _ _ _ _ _ (getUser_ok uid w Hok)).
      rewrite Hadmin. reflexivity. }
    cbn. repeat split; congruence.
Qed.

Lemma patch_status_unknown_id_witness :
  exists r w',
    patch_application_status "admin" 99 (Some "Visa Approved") (Sample.world []) = (Ok r, w')
    /\ db w' = Sample.tables
    /\ r = status_json 404 (Message "Application not found").
Proof.
  destruct (patch_status_unknown_id "admin" 99 (Some "Visa Approved") (Sample.world []))
    as (r & w' & Hrun & Hdb & _ & _ & H404 & _).
  - reflexivity.
  - reflexivity.
  - intros a [<- | []]. discriminate.
  - exists r, w'. split; [exact Hrun|]. split; [exact Hdb|]. now apply H404.
Defined.

(** C3, as stated, fails: no application has the id 99, and an admin who
    sends no status is answered 400, not 404. *)
Lemma patch_status_unknown_id_without_status :
  forallb (fun a => negb (application_id a =? 99)) (applications Sample.tables) = true
  /\ admin (find_user Sample.tables "admin") = true
  /\ fst (patch_application_status "admin" 99 None (Sample.world []))
     = Ok (status_json 400 (Message "Status is required")).
Proof. repeat split. Qed.

(** C10: when the status of an existing application has been updated and
    the creation of the notification then fails, the caller is answered 500
    while the row keeps the new status and its new [updatedAt]; no
    notification exists for the change. *)
Theorem patch_status_notification_failure uid id st w :
  let k := length (calls w) in
  fails w k = false ->
  admin (find_user (db w) uid) = true ->
  st <> EmptyString ->
  fails w (1 + k) = false ->
  (exists a, In a (applications (db w)) /\ application_id a = id) ->
  fails w (2 + k) = false ->
  fails w (3 + k) = false ->
  fails w (4 + k) = false ->
  fails w (5 + k) = true ->
  exists w',
    patch_application_status uid id (Some st) w
    = (Ok (status_json 500 (Message "Failed to update application status")), w')
    /\ applications (db w') = map (set_status id st (now w)) (applications (db w))
    /\ (exists a, In a (applications (db w')) /\ application_id a = id)
    /\ (forall a, In a (applications (db w')) -> application_id a = id ->
        status a = Some st /\ application_updatedAt a = Some (now w))
    /\ notifications (db w') = notifications (db w).
Proof.
  intros k H0 Hadmin Hst H1 (a & Hin & Hid) H2 H3 H4 H5.
  assert (Htruthy : truthy_string (Some st) = true).
  { cbn. destruct (String.eqb_spec st EmptyString); [contradiction | reflexivity]. }
  destruct (find_present (fun app => application_id app =? id)
              (order_by_desc application_createdAt (applications (db w))) a)
    as (b & Hfind & _ & _).
  { now apply order_by_desc_In. }
  { now apply Z.eqb_eq. }
  eexists. split.
  { unfold patch_application_status.
    erewrite try_catch_throw; [reflexivity|].
    rewrite (bind_ok _ _ _ _ _ (getUser_ok uid w H0)).
    rewrite Hadmin, Htruthy. cbn [negb].
    change (default EmptyString (Some st)) with st.
    erewrite bind_ok; [|apply getAllApplications_ok; exact H1].
    cbn [db record_call]. rewrite Hfind.
    erewrite bind_ok; [|apply query_ok; [exact H2 | reflexivity]].
    erewrite bind_ok; [|apply select_ok; exact H3].
    erewrite bind_ok; [|apply select_ok; exact H4].
    apply bind_throw. apply query_fails. exact H5. }
  cbn. split; [reflexivity|]. split; [|split; [|reflexivity]].
  - exists (set_status id st (now w) a). split.
    + apply in_map_iff. now exists a.
    + now rewrite set_status_id.
  - intros a' Ha' Hid'. apply in_map_iff in Ha' as (a0 & <- & _).
    rewrite set_status_id in Hid'. now apply set_status_hit.
Qed.

Lemma patch_status_notification_failure_witness :
  exists w',
    patch_application_status "admin" 1 (Some "Visa Approved") (Sample.world [5%nat])
    = (Ok (status_json 500 (Message "Failed to update application status")), w')
    /\ map status (applications (db w')) = [Some "Visa Approved"]
    /\ map application_updatedAt (applications (db w')) = [Some 1000]
    /\ notifications (db w') = notifications Sample.tables.
Proof.
  destruct (patch_status_notification_failure "admin" 1 "Visa Approved" (Sample.world [5%nat]))
    as (w' & Hrun & Happs & _ & _ & Hnotes); try reflexivity.
  - discriminate.
  - exists (Sample.application_of 1 "alice" "Submitted"). split; [now left | reflexivity].
  - exists w'. split; [exact Hrun|]. rewrite Happs. split; [reflexivity|].
    split; [reflexivity | exact Hnotes].
Defined.

(** ** PATCH /api/notifications/:id/read *)

Lemma set_read_read id n : isRead (set_read id n) = Some true \/ notification_id n <> id.
Proof.
  unfold set_read. destruct (Z.eqb_spec (notification_id n) id); [now left | now right].
Qed.

Lemma set_read_id id n : notification_id (set_read id n) = notification_id n.
Proof. unfold set_read. now destruct (notification_id n =? id). Qed.

Lemma set_read_noop id n :
  (notification_id n = id -> isRead n = Some true) -> set_read id n = n.
Proof.
  intros H. unfold set_read. destruct (Z.eqb_spec (notification_id n) id) as [Heq|]; [|reflexivity].
  specialize (H Heq). destruct n; cbn in *. now subst.
Qed.

Lemma set_read_idempotent id n : set_read id (set_read id n) = set_read id n.
Proof.
  apply set_read_noop. intros H. rewrite set_read_id in H.
  destruct (set_read_read id n); [assumption | contradiction].
Qed.

Lemma markNotificationAsRead_ok id w :
  fails w (length (calls w)) = false ->
  exists w',
    markNotificationAsRead id w = (Ok tt, w')
    /\ notifications (db w') = map (set_read id) (notifications (db w))
    /\ users (db w') = users (db w)
    /\ universities (db w') = universities (db w)
    /\ courses (db w') = courses (db w)
    /\ applications (db w') = applications (db w)
    /\ applications_seq (db w') = applications_seq (db w)
    /\ notifications_seq (db w') = notifications_seq (db w)
    /\ fails w' = fails w
    /\ calls w' = MarkNotificationAsRead id :: calls w.
Proof.
  intros H. eexists. split.
  - apply query_ok; [exact H | reflexivity].
  - cbn. repeat split.
Qed.

Lemma db_ext (d d' : Db) :
  users d = users d' -> universities d = universities d' -> courses d = courses d' ->
  applications d = applications d' -> notifications d = notifications d' ->
  applications_seq d = applications_seq d' -> notifications_seq d = notifications_seq d' ->
  d = d'.
Proof. destruct d, d'; cbn; intros; now subst. Qed.

(** C5, as the code has it: the handler never reports a missing id.  For
    every id, that of a notification or not, it answers success when the
    update does not fail; a second call answers success again and changes
    nothing; and when every notification with the id is already read (in
    particular when there is none) the first call changes nothing either. *)
Theorem mark_read_any_id id w :
  fails w (length (calls w)) = false ->
  fails w (S (length (calls w))) = false ->
  exists w1 w2,
    patch_notification_read id w = (Ok (json Success), w1)
    /\ patch_notification_read id w1 = (Ok (json Success), w2)
    /\ notifications (db w1) = map (set_read id) (notifications (db w))
    /\ db w2 = db w1
    /\ ((forall n, In n (notifications (db w)) -> notification_id n = id ->
         isRead n = Some true) -> db w1 = db w).
Proof.
  intros H0 H1.
  destruct (markNotificationAsRead_ok id w H0)
    as (w1 & Hrun1 & Hn1 & Hu1 & Huni1 & Hc1 & Ha1 & Has1 & Hns1 & Hf1 & Hcalls1).
  assert (H1' : fails w1 (length (calls w1)) = false).
  { rewrite Hf1, Hcalls1. exact H1. }
  destruct (markNotificationAsRead_ok id w1 H1')
    as (w2 & Hrun2 & Hn2 & Hu2 & Huni2 & Hc2 & Ha2 & Has2 & Hns2 & _ & _).
  exists w1, w2. unfold patch_notification_read.
  split. { apply try_catch_ok. now rewrite (bind_ok _ _ _ _ _ Hrun1). }
  split. { apply try_catch_ok. now rewrite (bind_ok _ _ _ _ _ Hrun2). }
  split; [exact Hn1|]. split.
  - apply db_ext; try assumption.
    rewrite Hn2, Hn1, map_map. apply map_ext. intros n. apply set_read_idempotent.
  - intros Hread. apply db_ext; try assumption.
    rewrite Hn1. rewrite <- (map_id (notifications (db w))) at 2.
    apply map_ext_in. intros n Hn. apply set_read_noop. now apply Hread.
Qed.

Lemma mark_read_any_id_witness :
  exists w1 w2,
    patch_notification_read 99 (Sample.world []) = (Ok (json Success), w1)
    /\ patch_notification_read 99 w1 = (Ok (json Success), w2)
    /\ db w1 = Sample.tables
    /\ db w2 = Sample.tables.
Proof.
  destruct (mark_read_any_id 99 (Sample.world []))
    as (w1 & w2 & Hrun1 & Hrun2 & _ & H21 & Hnoop); try reflexivity.
  assert (H1 : db w1 = Sample.tables).
  { apply Hnoop. intros n [<- | []]. discriminate. }
  exists w1, w2. split; [exact Hrun1|]. split; [exact Hrun2|].
  split; [exact H1 | now rewrite H21].
Defined.

(** C5, as stated, fails: no notification has the id 99, and marking it
    read is answered with success, not with Not-Found. *)
Lemma mark_read_missing_id_succeeds :
  forallb (fun n => negb (notification_id n =? 99)) (notifications Sample.tables) = true
  /\ fst (patch_notification_read 99 (Sample.world [])) = Ok (json Success).
Proof. split; reflexivity. Qed.

(** ** POST /api/admin/notifications *)

Lemma createNotification_ok n w :
  fails w (length (calls w)) = false ->
  user_exists (db w) (new_userId n) = true ->
  exists c w',
    createNotification n w = (Ok c, w')
    /\ notification_userId c = new_userId n
    /\ message c = new_message n
    /\ notifications (db w') = notifications (db w) ++ [c]
    /\ users (db w') = users (db w)
    /\ applications (db w') = applications (db w)
    /\ fails w' = fails w
    /\ calls w' = CreateNotification n :: calls w.
Proof.
  intros Hok Huser. eexists _, _. split.
  - apply query_ok; [exact Hok|]. rewrite Huser. reflexivity.
  - cbn. repeat split.
Qed.

Section Broadcast.

Variable mk : string -> InsertNotification.
Hypothesis mk_userId : forall id, new_userId (mk id) = id.

Lemma for_each_created ids : forall w,
  (forall id, In id ids -> user_exists (db w) id = true) ->
  (forall i, (i < length ids)%nat -> fails w (length (calls w) + i) = false) ->
  exists ns w',
    for_each (fun id => createNotification (mk id)) ids w = (Ok ns, w')
    /\ map notification_userId ns = ids
    /\ notifications (db w') = notifications (db w) ++ ns
    /\ users (db w') = users (db w)
    /\ applications (db w') = applications (db w)
    /\ fails w' = fails w
    /\ length (calls w') = (length (calls w) + length ids)%nat.
Proof.
  induction ids as [|id ids IH]; intros w Hex Hok.
  - exists [], w. cbn. rewrite app_nil_r, Nat.add_0_r. repeat split.
  - destruct (createNotification_ok (mk id) w)
      as (c & w1 & Hrun & Hc & _ & Hn1 & Hu1 & Ha1 & Hf1 & Hcalls1).
    { rewrite <- (Nat.add_0_r (length (calls w))). apply Hok. cbn. lia. }
    { rewrite mk_userId. apply Hex. now left. }
    destruct (IH w1) as (ns & w' & Hrest & Hids & Hn & Hu & Ha & Hf & Hlen).
    { intros id' Hin. unfold user_exists. rewrite Hu1. apply Hex. now right. }
    { intros i Hi. rewrite Hf1, Hcalls1. cbn [length].
      replace (S (length (calls w)) + i)%nat with (length (calls w) + S i)%nat by lia.
      apply Hok. cbn. lia. }
    exists (c :: ns), w'. split.
    { cbn [for_each]. rewrite (bind_ok _ _ _ _ _ Hrun).
      now rewrite (bind_ok _ _ _ _ _ Hrest). }
    cbn [map length]. rewrite Hc, mk_userId, Hids, Hn, Hn1, Hu, Hu1, Ha, Ha1, Hf, Hf1, Hlen, Hcalls1.
    rewrite <- app_assoc. cbn. repeat split. lia.
Qed.

Lemma for_each_interrupted done : forall id rest w,
  (forall id', In id' done -> user_exists (db w) id' = true) ->
  (forall i, (i < length done)%nat -> fails w (length (calls w) + i) = false) ->
  fails w (length (calls w) + length done) = true ->
  exists ns w',
    for_each (fun id => createNotification (mk id)) (done ++ id :: rest) w
    = (Throw QueryFailed, w')
    /\ map notification_userId ns = done
    /\ notifications (db w') = notifications (db w) ++ ns
    /\ applications (db w') = applications (db w).
Proof.
  induction done as [|d done IH]; intros id rest w Hex Hok Hfail.
  - exists [], (record_call (CreateNotification (mk id)) w). split.
    + cbn [app for_each]. apply bind_throw, query_fails.
      now rewrite Nat.add_0_r in Hfail.
    + cbn. now rewrite app_nil_r.
  - destruct (createNotification_ok (mk d) w)
      as (c & w1 & Hrun & Hc & _ & Hn1 & Hu1 & Ha1 & Hf1 & Hcalls1).
    { rewrite <- (Nat.add_0_r (length (calls w))). apply Hok. cbn. lia. }
    { rewrite mk_userId. apply Hex. now left. }
    destruct (IH id rest w1) as (ns & w' & Hrest & Hids & Hn & Ha).
    { intros id' Hin. unfold user_exists. rewrite Hu1. apply Hex. now right. }
    { intros i Hi. rewrite Hf1, Hcalls1. cbn [length].
      replace (S (length (calls w)) + i)%nat with (length (calls w) + S i)%nat by lia.
      apply Hok. cbn. lia. }
    { rewrite Hf1, Hcalls1. cbn [length] in *.
      replace (S (length (calls w)) + length done)%nat
        with (length (calls w) + S (length done))%nat by lia.
      exact Hfail. }
    exists (c :: ns), w'. split.
    { cbn [app for_each]. rewrite (bind_ok _ _ _ _ _ Hrun).
      now rewrite (bind_throw _ _ _ _ _ Hrest). }
    cbn [map]. rewrite Hc, mk_userId, Hids, Hn, Hn1, Ha, Ha1.
    rewrite <- app_assoc. cbn. repeat split.
Qed.

End Broadcast.

Lemma listed_user_exists d id :
  In id (map user_id (order_by_desc user_createdAt (users d))) -> user_exists d id = true.
Proof.
  intros Hin. apply in_map_iff in Hin as (u & <- & Hu).
  apply order_by_desc_In in Hu. unfold user_exists.
  apply existsb_exists. exists u. split; [exact Hu | apply String.eqb_refl].
Qed.

(** C6, as the code has it: a broadcast by an admin with no recipients
    given and a non-empty type, title and message goes to every user, newest
    first.  When every creation succeeds there is one new notification per
    user and the answer reports their number.  When a creation fails the
    answer is a 500 without any count, and the notifications created before
    the failure stay in the table. *)
Theorem broadcast_to_all_users uid userIds ty ti me w :
  let k := length (calls w) in
  let everyone := map user_id (order_by_desc user_createdAt (users (db w))) in
  fails w k = false ->
  admin (find_user (db w) uid) = true ->
  no_recipients userIds = true ->
  truthy_string ty = true -> truthy_string ti = true -> truthy_string me = true ->
  fails w (1 + k) = false ->
  ((forall i, (i < length everyone)%nat -> fails w (2 + k + i) = false) ->
   exists ns w',
     post_admin_notifications uid userIds ty ti me w
     = (Ok (json (Broadcast ("Notification sent to " +:+ pretty (count (users (db w)))
                               +:+ " users") ns)), w')
     /\ map notification_userId ns = everyone
     /\ notifications (db w') = notifications (db w) ++ ns)
  /\ (forall done id rest,
        everyone = done ++ id :: rest ->
        (forall i, (i < length done)%nat -> fails w (2 + k + i) = false) ->
        fails w (2 + k + length done) = true ->
        exists ns w',
          post_admin_notifications uid userIds ty ti me w
          = (Ok (status_json 500 (Message "Failed to send notification")), w')
          /\ map notification_userId ns = done
          /\ notifications (db w') = notifications (db w) ++ ns).
Proof.
  intros k everyone H0 Hadmin Hnone Hty Hti Hme H1.
  set (mk := fun id : string =>
               {| new_userId := id; new_title := default EmptyString ti;
                  new_message := default EmptyString me; new_type := ty;
                  new_isRead := Some false |}).
  assert (Htargets :
            (match userIds with
             | None | Some [] => us <- getUsers ;; ret (map user_id us)
             | Some ids => ret ids
             end) (record_call (GetUser uid) w)
            = (Ok everyone, record_call GetUsers (record_call (GetUser uid) w))).
  { assert (Hall : (us <- getUsers ;; ret (map user_id us)) (record_call (GetUser uid) w)
                   = (Ok everyone, record_call GetUsers (record_call (GetUser uid) w))).
    { erewrite bind_ok; [|apply getUsers_ok; exact H1]. reflexivity. }
    destruct userIds as [[|? ?]|]; [exact Hall | discriminate | exact Hall]. }
  split.
  - intros Hall.
    destruct (for_each_created mk (fun _ => eq_refl) everyone
                (record_call GetUsers (record_call (GetUser uid) w)))
      as (ns & w' & Hrun & Hids & Hn & _ & _ & _ & _).
    { intros id Hin. now apply listed_user_exists. }
    { intros i Hi. cbn [calls record_call fails length]. apply (Hall i Hi). }
    exists ns, w'. split; [|split; [exact Hids | exact Hn]].
    unfold post_admin_notifications. apply try_catch_ok.
    rewrite (bind_ok _ _ _ _ _ (getUser_ok uid w H0)).
    rewrite Hadmin, Hty, Hti, Hme. cbn [negb orb].
    rewrite (bind_ok _ _ _ _ _ Htargets).
    fold mk. rewrite (bind_ok _ _ _ _ _ Hrun).
    assert (Hlen : length ns = length (users (db w))).
    { rewrite <- (length_map notification_userId ns), Hids. unfold everyone.
      now rewrite length_map, order_by_desc_length. }
    unfold ret, count. now rewrite Hlen.
  - intros done id rest Hsplit Hdone Hfail.
    destruct (for_each_interrupted mk (fun _ => eq_refl) done id rest
                (record_call GetUsers (record_call (GetUser uid) w)))
      as (ns & w' & Hrun & Hids & Hn & _).
    { intros id' Hin. apply listed_user_exists. change (In id' everyone). rewrite Hsplit.
      apply in_or_app. now left. }
    { intros i Hi. cbn [calls record_call fails length]. apply (Hdone i Hi). }
    { cbn [calls record_call fails length]. exact Hfail. }
    exists ns, w'. split; [|split; [exact Hids | exact Hn]].
    unfold post_admin_notifications. erewrite try_catch_throw; [reflexivity|].
    rewrite (bind_ok _ _ _ _ _ (getUser_ok uid w H0)).
    rewrite Hadmin, Hty, Hti, Hme. cbn [negb orb].
    rewrite (bind_ok _ _ _ _ _ Htargets).
    fold mk. rewrite Hsplit. now rewrite (bind_throw _ _ _ _ _ Hrun).
Qed.

Lemma broadcast_to_all_users_witness :
  exists ns w',
    post_admin_notifications "admin" None (Some "info") (Some "Open day")
      (Some "Join us on Friday") (Sample.world [])
    = (Ok (json (Broadcast "Notification sent to 3 users" ns)), w')
    /\ map notification_userId ns = ["bob"; "alice"; "admin"]
    /\ notifications (db w') = notifications Sample.tables ++ ns.
Proof.
  destruct (broadcast_to_all_users "admin" None (Some "info") (Some "Open day")
              (Some "Join us on Friday") (Sample.world []))
    as [Hall _]; try reflexivity.
  destruct Hall as (ns & w' & Hrun & Hids & Hn); [reflexivity|].
  exists ns, w'. split; [exact Hrun|]. split; [exact Hids | exact Hn].
Defined.

(** C6, as stated, fails: with three users, when the second creation fails
    (the call number 3, after the caller's lookup, the listing and the first
    creation) one user has got the notification, and the answer is a 500 that
    reports no count. *)
Lemma broadcast_partial_failure_reports_no_count :
  fst (post_admin_notifications "admin" None (Some "info") (Some "Open day")
         (Some "Join us on Friday") (Sample.world [3%nat]))
  = Ok (status_json 500 (Message "Failed to send notification"))
  /\ map notification_userId
       (notifications
          (db (snd (post_admin_notifications "admin" None (Some "info") (Some "Open day")
                      (Some "Join us on Friday") (Sample.world [3%nat])))))
     = map notification_userId (notifications Sample.tables) ++ ["bob"].
Proof. split; reflexivity. Qed.

(** ** POST /api/applications *)

Lemma submission_overrides uid (req_body : gmap string JValue) supplied :
  submission uid (<["status" := supplied]> req_body) = submission uid req_body.
Proof.
  unfold submission.
  rewrite (insert_insert_ne _ "userId" "status") by discriminate.
  now rewrite insert_insert_eq.
Qed.

Lemma safeParse_submission uid req_body data :
  insertApplicationSchema_safeParse (submission uid req_body) = Some data ->
  ins_userId data = uid /\ ins_status data = Some (Some "Submitted").
Proof.
  unfold insertApplicationSchema_safeParse, required_string, nullable_string, submission.
  rewrite lookup_insert_eq.
  rewrite (lookup_insert_ne _ "status" "userId") by discriminate.
  rewrite lookup_insert_eq.
  intros H.
  repeat match type of H with
         | context [match ?x with _ => _ end] => destruct x; try discriminate
         end.
  injection H as <-. now split.
Qed.

Lemma createApplication_ok a w :
  fails w (length (calls w)) = false ->
  user_exists (db w) (ins_userId a) = true ->
  createApplication a w
  = (Ok (new_application (db w) (now w) a),
     with_db (insert_application (db w) (new_application (db w) (now w) a))
       (record_call (CreateApplication a) w)).
Proof.
  intros Hok Huser. apply query_ok; [exact Hok|]. now rewrite Huser.
Qed.

Lemma createApplication_inv a w app w' :
  createApplication a w = (Ok app, w') ->
  fails w (length (calls w)) = false
  /\ user_exists (db w) (ins_userId a) = true
  /\ app = new_application (db w) (now w) a
  /\ w' = with_db (insert_application (db w) app) (record_call (CreateApplication a) w).
Proof.
  unfold createApplication, query.
  destruct (fails w (length (calls w))); [discriminate|].
  destruct (user_exists (db w) (ins_userId a)); [|discriminate].
  intros H. injection H as <- <-. repeat split.
Qed.

(** The message lookup never throws and writes nothing. *)
Lemma notification_message_total data app w :
  exists msg w',
    notification_message data app w = (Ok msg, w')
    /\ db w' = db w
    /\ fails w' = fails w
    /\ now w' = now w
    /\ notification_requests (calls w') = notification_requests (calls w)
    /\ length (calls w') = (length (calls w)
                            + match ins_selectedCourses data with [] => 0 | _ => 1 end)%nat
    /\ (course_resolves (db w) (ins_selectedCourses data) = false
        \/ fails w (length (calls w)) = true ->
        msg = generic_message app).
Proof.
  unfold notification_message, course_resolves.
  destruct (ins_selectedCourses data) as [|first rest].
  - exists (generic_message app), w. cbn. rewrite Nat.add_0_r. repeat split.
  - unfold try_catch, bind, getCourseById, select, query.
    destruct (fails w (length (calls w))) eqn:Hf.
    + eexists _, _. split; [reflexivity|]. cbn. rewrite Nat.add_1_r. repeat split.
    + cbn [db now].
      destruct (course_by_id (db w) first) as [[c [u|]]|];
        eexists _, _; (split; [reflexivity|]); cbn; rewrite Nat.add_1_r;
        repeat split; intros [?|?]; discriminate.
Qed.

Lemma notify_submission_spec uid data app w :
  user_exists (db w) uid = true ->
  let kn := (length (calls w) + match ins_selectedCourses data with [] => 0 | _ => 1 end)%nat in
  exists n w',
    notify_submission uid data app w = (Ok tt, w')
    /\ applications (db w') = applications (db w)
    /\ notification_requests (calls w') = n :: notification_requests (calls w)
    /\ new_userId n = uid
    /\ (course_resolves (db w) (ins_selectedCourses data) = false
        \/ fails w (length (calls w)) = true ->
        new_message n = generic_message app)
    /\ (fails w kn = false ->
        exists c, notifications (db w') = notifications (db w) ++ [c]
                  /\ notification_userId c = uid /\ message c = new_message n
                  /\ isRead c = Some false)
    /\ (fails w kn = true -> notifications (db w') = notifications (db w)).
Proof.
  intros Huser kn.
  destruct (notification_message_total data app w)
    as (msg & w1 & Hmsg & Hdb & Hf & Hnow & Hreq & Hlen & Hgen).
  set (n := {| new_userId := uid; new_title := "Application Submitted Successfully";
               new_message := msg; new_type := Some "application";
               new_isRead := Some false |}).
  exists n. unfold notify_submission.
  unfold try_catch at 1. rewrite (bind_ok _ _ _ _ _ Hmsg). fold n.
  unfold bind, createNotification, query.
  rewrite Hf, Hlen. fold kn.
  destruct (fails w kn) eqn:Hkn.
  - eexists. split; [reflexivity|]. cbn. rewrite Hdb, Hreq.
    repeat split; try assumption; discriminate.
  - rewrite Hdb. cbn [new_userId n]. rewrite Huser.
    eexists. split; [reflexivity|]. cbn. rewrite Hreq.
    repeat split; try assumption; try discriminate.
    intros _. eexists. split; [reflexivity|]. repeat split.
Qed.

(** A body the schema accepts, from a caller who is a user, when the
    insert does not fail. *)
Lemma post_applications_accepted uid req_body data w :
  let k := length (calls w) in
  let kn := (k + match ins_selectedCourses data with [] => 1 | _ => 2 end)%nat in
  insertApplicationSchema_safeParse (submission uid req_body) = Some data ->
  fails w k = false ->
  user_exists (db w) uid = true ->
  exists n w',
    let app := new_application (db w) (now w) data in
    post_applications uid req_body w = (Ok (json (ApplicationBody app)), w')
    /\ applications (db w') = applications (db w) ++ [app]
    /\ notification_requests (calls w') = n :: notification_requests (calls w)
    /\ new_userId n = uid
    /\ (course_resolves (db w) (ins_selectedCourses data) = false
        \/ fails w (1 + k) = true ->
        new_message n = generic_message app)
    /\ (fails w kn = false ->
        exists c, notifications (db w') = notifications (db w) ++ [c]
                  /\ notification_userId c = uid /\ message c = new_message n
                  /\ isRead c = Some false)
    /\ (fails w kn = true -> notifications (db w') = notifications (db w)).
Proof.
  intros k kn Hparse Hok Huser.
  destruct (safeParse_submission _ _ _ Hparse) as [Huid _].
  pose proof (createApplication_ok data w Hok) as Hcreate.
  rewrite Huid in Hcreate. specialize (Hcreate Huser).
  set (app := new_application (db w) (now w) data) in *.
  set (w1 := with_db (insert_application (db w) app) (record_call (CreateApplication data) w)) in *.
  destruct (notify_submission_spec uid data app w1 Huser)
    as (n & w' & Hrun & Happs & Hreq & Hn & Hgen & Hcreated & Hfailed).
  exists n, w'. cbv zeta. split.
  { unfold post_applications. apply try_catch_ok.
    unfold insertApplicationSchema_parse. rewrite Hparse.
    rewrite (bind_ok _ _ _ _ _ (eq_refl : ret data w = (Ok data, w))).
    rewrite (bind_ok _ _ _ _ _ Hcreate).
    now rewrite (bind_ok _ _ _ _ _ Hrun). }
  split; [exact Happs|]. split; [exact Hreq|]. split; [exact Hn|].
  assert (Hkn : (length (calls w1)
                 + match ins_selectedCourses data with [] => 0 | _ => 1 end)%nat = kn).
  { unfold kn, k, w1. cbn [calls with_db record_call length].
    destruct (ins_selectedCourses data); lia. }
  rewrite Hkn in Hcreated, Hfailed.
  split; [exact Hgen|]. split; [exact Hcreated | exact Hfailed].
Qed.

Lemma post_applications_rejected uid req_body w :
  insertApplicationSchema_safeParse (submission uid req_body) = None
  \/ fails w (length (calls w)) = true
  \/ user_exists (db w) uid = false ->
  fst (post_applications uid req_body w)
  = Ok (status_json 500 (Message "Failed to create application")).
Proof.
  intros H. unfold post_applications, insertApplicationSchema_parse.
  destruct (insertApplicationSchema_safeParse (submission uid req_body)) as [data|] eqn:Hparse.
  - destruct (safeParse_submission _ _ _ Hparse) as [Huid _].
    destruct H as [H | H]; [discriminate|].
    unfold try_catch, bind, ret, createApplication, query.
    destruct (fails w (length (calls w))) eqn:Hf; [reflexivity|].
    destruct H as [H | H]; [discriminate|].
    cbn [db]. now rewrite Huid, H.
  - reflexivity.
Qed.

(** C2: whatever status the request body carries, a submission that is
    accepted (answered 200) has stored an application whose status is
    "Submitted", owned by the caller, and the supplied status changes nothing
    in the outcome. *)
Theorem submitted_status uid req_body supplied w resp w' :
  post_applications uid (<["status" := supplied]> req_body) w = (Ok resp, w') ->
  code resp = 200 ->
  exists app,
    body resp = ApplicationBody app
    /\ status app = Some "Submitted"
    /\ application_userId app = uid
    /\ applications (db w') = applications (db w) ++ [app]
    /\ post_applications uid req_body w = (Ok resp, w').
Proof.
  intros Hrun Hcode.
  assert (Hsame : post_applications uid (<["status" := supplied]> req_body) w
                  = post_applications uid req_body w).
  { unfold post_applications. now rewrite submission_overrides. }
  rewrite Hsame in Hrun.
  destruct (insertApplicationSchema_safeParse (submission uid req_body)) as [data|] eqn:Hparse.
  2: { pose proof (post_applications_rejected uid req_body w (or_introl Hparse)) as H.
       rewrite Hrun in H. injection H as ->. discriminate. }
  destruct (fails w (length (calls w))) eqn:Hf.
  { pose proof (post_applications_rejected uid req_body w (or_intror (or_introl Hf))) as H.
    rewrite Hrun in H. injection H as ->. discriminate. }
  destruct (user_exists (db w) uid) eqn:Hu.
  2: { pose proof (post_applications_rejected uid req_body w (or_intror (or_intror Hu))) as H.
       rewrite Hrun in H. injection H as ->. discriminate. }
  destruct (post_applications_accepted uid req_body data w Hparse Hf Hu)
    as (n & w2 & Hrun2 & Happs & _).
  rewrite Hrun in Hrun2. injection Hrun2 as -> ->.
  destruct (safeParse_submission _ _ _ Hparse) as [Huid Hstatus].
  exists (new_application (db w) (now w) data).
  split; [reflexivity|]. split; [cbn; now rewrite Hstatus|].
  split; [exact Huid|]. split; [exact Happs | exact Hrun].
Qed.

(** C4: for a body the schema accepts, from a caller who is a user, once
    the insert has gone through, the submission is answered with the stored
    application whatever happens next.  The storage is asked for exactly one
    notification, for the caller; its message is the generic one when no
    course is selected, the first selected course or its university is not
    found, or the lookup fails.  When the creation does not fail, that
    notification, unread, is the one row added; when it fails, no row is
    added and the answer is the same. *)
Theorem submission_notifies uid req_body data w :
  let k := length (calls w) in
  let kn := (k + match ins_selectedCourses data with [] => 1 | _ => 2 end)%nat in
  insertApplicationSchema_safeParse (submission uid req_body) = Some data ->
  fails w k = false ->
  user_exists (db w) uid = true ->
  exists app n w',
    post_applications uid req_body w = (Ok (json (ApplicationBody app)), w')
    /\ applications (db w') = applications (db w) ++ [app]
    /\ application_userId app = uid
    /\ notification_requests (calls w') = n :: notification_requests (calls w)
    /\ new_userId n = uid
    /\ (course_resolves (db w) (ins_selectedCourses data) = false
        \/ fails w (1 + k) = true ->
        new_message n = generic_message app)
    /\ (fails w kn = false ->
        exists c, notifications (db w') = notifications (db w) ++ [c]
                  /\ notification_userId c = uid /\ message c = new_message n
                  /\ isRead c = Some false)
    /\ (fails w kn = true -> notifications (db w') = notifications (db w)).
Proof.
  intros k kn Hparse Hok Huser.
  destruct (post_applications_accepted uid req_body data w Hparse Hok Huser)
    as (n & w' & Hrun & Happs & Hreq & Hn & Hgen & Hcreated & Hfailed).
  destruct (safeParse_submission _ _ _ Hparse) as [Huid _].
  exists (new_application (db w) (now w) data), n, w'.
  split; [exact Hrun|]. split; [exact Happs|]. split; [exact Huid|].
  split; [exact Hreq|]. split; [exact Hn|]. split; [exact Hgen|].
  split; [exact Hcreated | exact Hfailed].
Qed.

Lemma submitted_status_witness :
  exists app,
    fst (post_applications "alice"
           (<["status" := JStr "Visa Approved"]> Sample.submission_body) (Sample.world []))
    = Ok (json (ApplicationBody app))
    /\ status app = Some "Submitted"
    /\ applications
         (db (snd (post_applications "alice"
                     (<["status" := JStr "Visa Approved"]> Sample.submission_body)
                     (Sample.world []))))
       = applications Sample.tables ++ [app].
Proof.
  destruct (submitted_status "alice" Sample.submission_body (JStr "Visa Approved")
              (Sample.world []) (json (ApplicationBody Sample.submitted))
              (snd (post_applications "alice"
                      (<["status" := JStr "Visa Approved"]> Sample.submission_body)
                      (Sample.world []))))
    as (app & Hbody & Hstatus & _ & Happs & _).
  - vm_compute. reflexivity.
  - reflexivity.
  - exists app. cbn in Hbody. injection Hbody as <-.
    split; [vm_compute; reflexivity|]. split; [exact Hstatus | exact Happs].
Defined.

Lemma submission_notifies_witness :
  exists app w',
    post_applications "alice" Sample.submission_body (Sample.world [2%nat])
    = (Ok (json (ApplicationBody app)), w')
    /\ applications (db w') = applications Sample.tables ++ [app]
    /\ notifications (db w') = notifications Sample.tables.
Proof.
  destruct (submission_notifies "alice" Sample.submission_body Sample.submitted_data
              (Sample.world [2%nat]))
    as (app & n & w' & Hrun & Happs & _ & _ & _ & _ & _ & Hfailed).
  - vm_compute. reflexivity.
  - reflexivity.
  - reflexivity.
  - exists app, w'. split; [exact Hrun|]. split; [exact Happs|].
    apply Hfailed. reflexivity.
Defined.

(** ** [getCourses] *)

Lemma join_universities_course us c r :
  In r (join_universities us c) -> course r = c.
Proof.
  unfold join_universities.
  destruct (List.filter _ us) as [|u ms].
  - intros [<- | []]. reflexivity.
  - intros H. apply in_map_iff in H as (u' & <- & _). reflexivity.
Qed.

Lemma filter_all {A} (p : A -> bool) l :
  (forall x, In x l -> p x = true) -> List.filter p l = l.
Proof.
  induction l as [|x l IH]; intros H; cbn; [reflexivity|].
  rewrite (H x (or_introl eq_refl)). f_equal. apply IH. intros y Hy. apply H. now right.
Qed.

Lemma filter_none {A} (p : A -> bool) l :
  (forall x, In x l -> p x = false) -> List.filter p l = [].
Proof.
  induction l as [|x l IH]; intros H; cbn; [reflexivity|].
  rewrite (H x (or_introl eq_refl)). apply IH. intros y Hy. apply H. now right.
Qed.

Lemma filter_and {A} (f g : A -> bool) l :
  List.filter (fun x => f x && g x) l = List.filter g (List.filter f l).
Proof.
  induction l as [|x l IH]; [reflexivity|].
  cbn [List.filter]. destruct (f x); cbn [andb List.filter]; [|exact IH].
  destruct (g x); now rewrite IH.
Qed.

(** Filtering the courses before the join is filtering the joined rows. *)
Lemma join_filter us (p : Course -> bool) cs :
  flat_map (join_universities us) (List.filter p cs)
  = List.filter (fun r => p (course r)) (flat_map (join_universities us) cs).
Proof.
  induction cs as [|c cs IH]; [reflexivity|].
  change (flat_map (join_universities us) (c :: cs))
    with (join_universities us c ++ flat_map (join_universities us) cs).
  rewrite List.filter_app, <- IH.
  change (List.filter p (c :: cs)) with (if p c then c :: List.filter p cs else List.filter p cs).
  destruct (p c) eqn:Hp.
  - change (flat_map (join_universities us) (c :: List.filter p cs))
      with (join_universities us c ++ flat_map (join_universities us) (List.filter p cs)).
    f_equal. symmetry. apply filter_all.
    intros r Hr. now rewrite (join_universities_course _ _ _ Hr).
  - rewrite (filter_none (fun r => p (course r)) (join_universities us c)); [reflexivity|].
    intros r Hr. now rewrite (join_universities_course _ _ _ Hr).
Qed.

Section GetCoursesFacts.

Variable JsNumber : Type.
Variable parseFloat : string -> JsNumber.
Variable Number_toString : JsNumber -> string.
Variable ilike : string -> string -> bool.
Variable numeric_eq : string -> string -> bool.

Let get := getCourses JsNumber parseFloat Number_toString ilike numeric_eq.
Let conds := conditions JsNumber parseFloat Number_toString ilike numeric_eq.

Let band := band_is JsNumber parseFloat Number_toString numeric_eq.

Lemma conditions_without_ielts f :
  conds (Some f)
  = conds (Some (without_ielts f))
    ++ ielts_condition JsNumber parseFloat Number_toString numeric_eq f.
Proof.
  unfold conds, conditions, without_ielts.
  unfold search_condition, faculty_condition, level_condition. cbn [search filter_faculty filter_level].
  unfold ielts_condition at 2. cbn [ieltsScore chosen].
  now rewrite app_nil_r, !app_assoc.
Qed.

(** C8, as the code has it: [getCourses] with the IELTS filter returns the
    rows it returns without that filter, in their order, kept exactly when
    the band of the course equals, as a numeric, the text of the number parsed
    from the score; when the score is missing, empty or "All IELTS Scores" no
    condition on the band is applied and the rows are those of the other
    filters. *)
Theorem getCourses_ielts_filter filters w :
  fails w (length (calls w)) = false ->
  exists rows others,
    get (Some filters) w = (Ok rows, record_call GetCourses w)
    /\ get (Some (without_ielts filters)) w = (Ok others, record_call GetCourses w)
    /\ (forall score,
          ieltsScore filters = Some score ->
          score <> EmptyString -> score <> "All IELTS Scores" ->
          rows = List.filter (band score) others)
    /\ (ieltsScore filters = None \/ ieltsScore filters = Some EmptyString
        \/ ieltsScore filters = Some "All IELTS Scores" ->
        rows = others).
Proof.
  intros Hok. eexists _, _.
  split; [apply select_ok; exact Hok|].
  split; [apply select_ok; exact Hok|].
  fold conds. rewrite conditions_without_ielts.
  split.
  - intros score Hscore Hne Hall.
    unfold ielts_condition, chosen. rewrite Hscore.
    destruct (String.eqb_spec score EmptyString); [contradiction|].
    destruct (String.eqb_spec score "All IELTS Scores"); [contradiction|].
    cbn [orb]. rewrite !join_filter, <- filter_and.
    apply List.filter_ext. intros r.
    rewrite forallb_app. cbn [forallb]. unfold band, band_is. now rewrite andb_true_r.
  - intros Hnone. 
    assert (Hc : ielts_condition JsNumber parseFloat Number_toString numeric_eq filters = []).
    { unfold ielts_condition, chosen.
      destruct Hnone as [-> | [-> | ->]]; reflexivity. }
    now rewrite Hc, app_nil_r.
Qed.

End GetCoursesFacts.

Lemma getCourses_ielts_filter_witness :
  exists rows others,
    Builtins.getCourses (Some (Sample.by_ielts "6.5")) (Sample.world [])
    = (Ok rows, record_call GetCourses (Sample.world []))
    /\ Builtins.getCourses (Some (without_ielts (Sample.by_ielts "6.5"))) (Sample.world [])
       = (Ok others, record_call GetCourses (Sample.world []))
    /\ map (fun r => course_id (course r)) others = [3; 4]
    /\ map (fun r => course_id (course r)) rows = [3].
Proof.
  destruct (getCourses_ielts_filter Builtins.Decimal Builtins.parse_decimal
              Builtins.decimal_to_string Builtins.ilike Builtins.numeric_eq
              (Sample.by_ielts "6.5") (Sample.world []))
    as (rows & others & Hrows & Hothers & Hscore & _); [reflexivity|].
  exists rows, others. split; [exact Hrows|]. split; [exact Hothers|].
  assert (Ho : others
               = [ {| course := Sample.engineering; university := Some Sample.oxford |};
                   {| course := Sample.law; university := Some Sample.oxford |} ]).
  { assert (H : Ok others
                = Ok [ {| course := Sample.engineering; university := Some Sample.oxford |};
                       {| course := Sample.law; university := Some Sample.oxford |} ]).
    { change (Ok others) with (fst (Ok others, record_call GetCourses (Sample.world []))).
      rewrite <- Hothers. vm_compute. reflexivity. }
    now injection H. }
  split; [now rewrite Ho|].
  rewrite (Hscore "6.5"); [|reflexivity|discriminate|discriminate].
  rewrite Ho. vm_compute. reflexivity.
Defined.

(** C8, as stated, fails: for the score "All IELTS Scores" the number
    parsed is NaN, which no band equals, and the query returns every course,
    the one of band 7.0 among them. *)
Lemma getCourses_all_ielts_scores_returns_all :
  Builtins.parse_decimal "All IELTS Scores" = Builtins.NaN
  /\ forallb (fun c => negb (Builtins.numeric_eq (ieltsOverall c)
                             (Builtins.decimal_to_string
                                (Builtins.parse_decimal "All IELTS Scores"))))
       (courses Sample.tables) = true
  /\ fst (Builtins.getCourses (Some (Sample.by_ielts "All IELTS Scores")) (Sample.world []))
     = Ok [ {| course := Sample.engineering; university := Some Sample.oxford |};
            {| course := Sample.law; university := Some Sample.oxford |} ].
Proof. repeat split. Qed.

(** ** Statistics *)

(** The example of the specification: ten users, four of them with an
    application, two of these with a visa. *)
Example stats_of_the_example :
  exists s,
    fst (get_admin_stats "admin" (Sample.request_on (Sample.population 9 2 2)))
    = Ok (json (StatsBody s))
    /\ totalUsers s = 10
    /\ conversionRate s = 40%float
    /\ finalConversionRate s = Some 50%float.
Proof. eexists. split; [vm_compute; reflexivity|]. repeat split. Qed.

(** C1, where the code departs from it: with 40 users of whom 23 have an
    application the exact percentage is 57.5, which rounds to 58, and the
    handler answers 57: the binary64 product [(23 / 40) * 100] is
    57.49999999999999. *)
Theorem admin_stats_half_rounds_down :
  exists s,
    fst (get_admin_stats "admin" (Sample.request_on (Sample.population 39 0 23)))
    = Ok (json (StatsBody s))
    /\ totalUsers s = 40
    /\ count (distinct (map application_userId
                          (applications (Sample.population 39 0 23)))) = 23
    /\ conversionRate s = 57%float
    /\ exact_percentage 23 40 = 58.
Proof. eexists. split; [vm_compute; reflexivity|]. repeat split. Qed.

(** C9, where the code departs from it: with 40 users and 23 applications
    the dashboard answers 57 where [round(100 * 23 / 40)] is 58, for the same
    reason as in [/api/admin/stats]. *)
Theorem dashboard_stats_half_rounds_down :
  exists s,
    fst (get_admin_dashboard_stats "u1" (Sample.request_on (Sample.population 39 0 23)))
    = Ok (json (StatsBody s))
    /\ totalUsers s = 40
    /\ totalApplications s = 23
    /\ conversionRate s = 57%float
    /\ exact_percentage 23 40 = 58.
Proof. eexists. split; [vm_compute; reflexivity|]. repeat split. Qed.

(** ** The favorites *)

Lemma Map_has_set m k v k' :
  Favorites.Map_has (Favorites.Map_set m k v) k'
  = String.eqb k k' || Favorites.Map_has m k'.
Proof.
  unfold Favorites.Map_has.
  induction m as [|[k0 v0] m IH]; cbn [Favorites.Map_set existsb fst].
  - now rewrite orb_false_r.
  - destruct (String.eqb_spec k0 k) as [->|Hne]; cbn [existsb fst].
    + destruct (String.eqb k k'); reflexivity.
    + rewrite IH. destruct (String.eqb k0 k'), (String.eqb k k'); reflexivity.
Qed.

Lemma Map_keys_set m k v :
  Favorites.Map_keys (Favorites.Map_set m k v)
  = if Favorites.Map_has m k then Favorites.Map_keys m else Favorites.Map_keys m ++ [k].
Proof.
  unfold Favorites.Map_keys, Favorites.Map_has.
  induction m as [|[k0 v0] m IH]; cbn [Favorites.Map_set existsb fst map]; [reflexivity|].
  destruct (String.eqb_spec k0 k) as [->|Hne]; cbn [orb map fst]; [reflexivity|].
  rewrite IH. now destruct (existsb _ m).
Qed.

Lemma Map_has_In m k : Favorites.Map_has m k = true <-> In k (Favorites.Map_keys m).
Proof.
  unfold Favorites.Map_has, Favorites.Map_keys. rewrite existsb_exists, in_map_iff.
  split.
  - intros ([k0 v0] & Hin & Heq). apply String.eqb_eq in Heq. cbn in Heq. subst.
    now exists (k, v0).
  - intros ([k0 v0] & <- & Hin). exists (k0, v0). split; [exact Hin | apply String.eqb_refl].
Qed.

Lemma Map_set_In m k v : In v (Favorites.Map_values (Favorites.Map_set m k v)).
Proof.
  unfold Favorites.Map_values.
  induction m as [|[k0 v0] m IH]; cbn [Favorites.Map_set map snd]; [now left|].
  destruct (String.eqb k0 k); cbn [map snd]; [now left | now right].
Qed.

(** A post for a course that exists. *)
Lemma favorite_found_after_post store key id c w :
  fails w (length (calls w)) = false ->
  course_by_id (db w) id = Some c ->
  exists f store' w',
    Favorites.post_favorites store key id w
    = (Ok ({| Favorites.reply_code := 201;
              Favorites.reply_body := Favorites.FavoriteCreated f |}, store'), w')
    /\ store' = Favorites.Map_set store key f
    /\ w' = record_call (GetCourseById id) w.
Proof.
  intros Hok Hc. eexists _, _, _. split.
  { unfold Favorites.post_favorites.
    erewrite bind_ok; [|apply select_ok; exact Hok]. rewrite Hc. reflexivity. }
  split; reflexivity.
Qed.

(** X1: adding a favorite for a course that exists answers 201 with the
    course joined in and leaves the tables alone.  From then on
    GET /api/favorites/check/:courseId answers [{ isFavorite: true }] for
    that key and GET /api/favorites lists the favorite; the check of every
    other key answers what it answered before the addition. *)
Theorem favorite_added_is_found store key id c w :
  fails w (length (calls w)) = false ->
  course_by_id (db w) id = Some c ->
  exists f store' w',
    Favorites.post_favorites store key id w
    = (Ok ({| Favorites.reply_code := 201;
              Favorites.reply_body := Favorites.FavoriteCreated f |}, store'), w')
    /\ Favorites.favorite_courseId f = id
    /\ Favorites.favorite_course f = c
    /\ db w' = db w
    /\ Favorites.check_favorite store' key w'
       = (Ok ({| Favorites.reply_code := 200;
                 Favorites.reply_body := Favorites.IsFavorite true |}, store'), w')
    /\ (exists fs,
          Favorites.get_favorites store' w'
          = (Ok ({| Favorites.reply_code := 200;
                    Favorites.reply_body := Favorites.FavoritesList fs |}, store'), w')
          /\ In f fs)
    /\ (forall k' w0 answer,
          k' <> key ->
          Favorites.check_favorite store k' w0 = (Ok (answer, store), w0) ->
          Favorites.check_favorite store' k' w0 = (Ok (answer, store'), w0)).
Proof.
  intros Hok Hc. eexists _, _, _. split.
  { unfold Favorites.post_favorites.
    erewrite bind_ok; [|apply select_ok; exact Hok]. rewrite Hc. reflexivity. }
  cbn [Favorites.favorite_courseId Favorites.favorite_course db record_call].
  split; [reflexivity|]. split; [reflexivity|]. split; [reflexivity|]. split.
  { unfold Favorites.check_favorite. rewrite Map_has_set, String.eqb_refl. reflexivity. }
  split.
  { eexists. split; [reflexivity | apply Map_set_In]. }
  intros k' w0 answer Hne Hbefore.
  unfold Favorites.check_favorite, ret in Hbefore |- *.
  injection Hbefore as <-.
  rewrite Map_has_set.
  destruct (String.eqb_spec key k'); [congruence | reflexivity].
Qed.

Lemma favorite_added_is_found_witness :
  exists f store' w',
    Favorites.post_favorites [] "3" 3 (Sample.world [])
    = (Ok ({| Favorites.reply_code := 201;
              Favorites.reply_body := Favorites.FavoriteCreated f |}, store'), w')
    /\ Favorites.favorite_course f
       = {| course := Sample.engineering; university := Some Sample.oxford |}
    /\ Favorites.check_favorite store' "3" w'
       = (Ok ({| Favorites.reply_code := 200;
                 Favorites.reply_body := Favorites.IsFavorite true |}, store'), w')
    /\ Favorites.check_favorite store' "4" w'
       = (Ok ({| Favorites.reply_code := 200;
                 Favorites.reply_body := Favorites.IsFavorite false |}, store'), w').
Proof.
  destruct (favorite_added_is_found [] "3" 3
              {| course := Sample.engineering; university := Some Sample.oxford |}
              (Sample.world []))
    as (f & store' & w' & Hrun & _ & Hc & _ & Hhas & _ & Hother);
    [reflexivity | reflexivity |].
  exists f, store', w'. split; [exact Hrun|]. split; [exact Hc|]. split; [exact Hhas|].
  apply Hother; [discriminate | reflexivity].
Defined.

(** Setting a key that is there replaces its favorite where it stands,
    setting a new key adds one entry at the end, and the keys stay distinct. *)
Lemma Map_set_keys m k v :
  NoDup (Favorites.Map_keys m) ->
  NoDup (Favorites.Map_keys (Favorites.Map_set m k v))
  /\ (Favorites.Map_has m k = true ->
      Favorites.Map_keys (Favorites.Map_set m k v) = Favorites.Map_keys m)
  /\ (Favorites.Map_has m k = false ->
      Favorites.Map_keys (Favorites.Map_set m k v) = Favorites.Map_keys m ++ [k]).
Proof.
  intros Hnd. rewrite Map_keys_set.
  destruct (Favorites.Map_has m k) eqn:Hhas.
  - split; [exact Hnd|]. split; [reflexivity | discriminate].
  - split; [|split; [discriminate | reflexivity]].
    apply NoDup_app. split; [exact Hnd|]. split; [|apply NoDup_singleton].
    intros x Hx Hx'. apply list_elem_of_In in Hx, Hx'. destruct Hx' as [<- | []].
    apply Map_has_In in Hx. congruence.
Qed.

(** X2: the map holds one favorite per key, whoever adds it.  Adding the
    same course under the same key a second time answers 201 again and
    replaces the favorite where it stands: the keys of the map, and so the
    number of favorites listed, are those after the first addition, and they
    are distinct.  A key that was not there is added last. *)
Theorem favorite_added_twice store key id c w :
  let k := length (calls w) in
  fails w k = false ->
  fails w (S k) = false ->
  course_by_id (db w) id = Some c ->
  NoDup (Favorites.Map_keys store) ->
  exists f1 store1 w1 f2 store2 w2,
    Favorites.post_favorites store key id w
    = (Ok ({| Favorites.reply_code := 201;
              Favorites.reply_body := Favorites.FavoriteCreated f1 |}, store1), w1)
    /\ Favorites.post_favorites store1 key id w1
       = (Ok ({| Favorites.reply_code := 201;
                 Favorites.reply_body := Favorites.FavoriteCreated f2 |}, store2), w2)
    /\ Favorites.Map_keys store2 = Favorites.Map_keys store1
    /\ NoDup (Favorites.Map_keys store2)
    /\ (Favorites.Map_has store key = false ->
        Favorites.Map_keys store1 = Favorites.Map_keys store ++ [key]).
Proof.
  intros k Hok0 Hok1 Hc Hnd.
  destruct (favorite_found_after_post store key id c w Hok0 Hc)
    as (f1 & store1 & w1 & Hrun1 & Hstore1 & Hw1).
  assert (Hok1' : fails w1 (length (calls w1)) = false) by (subst w1; exact Hok1).
  assert (Hc' : course_by_id (db w1) id = Some c) by (subst w1; exact Hc).
  destruct (favorite_found_after_post store1 key id c w1 Hok1' Hc')
    as (f2 & store2 & w2 & Hrun2 & Hstore2 & _).
  exists f1, store1, w1, f2, store2, w2.
  split; [exact Hrun1|]. split; [exact Hrun2|].
  destruct (Map_set_keys store key f1 Hnd) as (Hnd1 & _ & Hnew).
  rewrite <- Hstore1 in Hnd1, Hnew.
  destruct (Map_set_keys store1 key f2 Hnd1) as (Hnd2 & Hsame & _).
  rewrite <- Hstore2 in Hnd2, Hsame.
  split; [|split; [exact Hnd2 | exact Hnew]].
  apply Hsame. rewrite Hstore1, Map_has_set, String.eqb_refl. reflexivity.
Qed.

Lemma favorite_added_twice_witness :
  exists f1 store1 w1 f2 store2 w2,
    Favorites.post_favorites [] "3" 3 (Sample.world [])
    = (Ok ({| Favorites.reply_code := 201;
              Favorites.reply_body := Favorites.FavoriteCreated f1 |}, store1), w1)
    /\ Favorites.post_favorites store1 "3" 3 w1
       = (Ok ({| Favorites.reply_code := 201;
                 Favorites.reply_body := Favorites.FavoriteCreated f2 |}, store2), w2)
    /\ Favorites.Map_keys store2 = ["3"].
Proof.
  destruct (favorite_added_twice [] "3" 3
              {| course := Sample.engineering; university := Some Sample.oxford |}
              (Sample.world []))
    as (f1 & store1 & w1 & f2 & store2 & w2 & Hrun1 & Hrun2 & Hsame & _ & Hnew);
    [reflexivity | reflexivity | reflexivity | apply NoDup_nil_2 |].
  exists f1, store1, w1, f2, store2, w2.
  split; [exact Hrun1|]. split; [exact Hrun2|].
  rewrite Hsame. now apply Hnew.
Defined.

Lemma Map_has_delete m k k' :
  Favorites.Map_has (snd (Favorites.Map_delete m k)) k'
  = negb (String.eqb k k') && Favorites.Map_has m k'.
Proof.
  unfold Favorites.Map_delete, Favorites.Map_has. cbn [snd].
  induction m as [|[k0 v0] m IH]; cbn [List.filter existsb fst].
  - now rewrite andb_false_r.
  - destruct (String.eqb_spec k0 k) as [->|Hne]; cbn [negb existsb fst].
    + rewrite IH. destruct (String.eqb k k'); reflexivity.
    + rewrite IH. destruct (String.eqb_spec k0 k') as [->|]; cbn [orb].
      * destruct (String.eqb_spec k k'); [congruence | reflexivity].
      * reflexivity.
Qed.

(** X3: removing a favorite always answers 200 and reports whether the key
    was there; afterwards the check of that key says no, a second removal
    reports that nothing was removed, and every other key is as before. *)
Theorem favorite_removed_is_gone store key w :
  exists store',
    Favorites.delete_favorite store key w
    = (Ok ({| Favorites.reply_code := 200;
              Favorites.reply_body := Favorites.Removed (Favorites.Map_has store key) |},
           store'), w)
    /\ Favorites.check_favorite store' key w
       = (Ok ({| Favorites.reply_code := 200;
                 Favorites.reply_body := Favorites.IsFavorite false |}, store'), w)
    /\ Favorites.delete_favorite store' key w
       = (Ok ({| Favorites.reply_code := 200;
                 Favorites.reply_body := Favorites.Removed false |}, store'), w)
    /\ (forall k', k' <> key -> Favorites.Map_has store' k' = Favorites.Map_has store k').
Proof.
  exists (snd (Favorites.Map_delete store key)).
  assert (Hgone : Favorites.Map_has (snd (Favorites.Map_delete store key)) key = false).
  { rewrite Map_has_delete, String.eqb_refl. reflexivity. }
  split; [reflexivity|]. split.
  { unfold Favorites.check_favorite. now rewrite Hgone. }
  split.
  { unfold Favorites.delete_favorite, Favorites.Map_delete at 1. rewrite Hgone.
    unfold ret. do 3 f_equal. cbn [snd].
    apply filter_all. intros e He. apply List.filter_In in He as [_ He]. exact He. }
  intros k' Hne. rewrite Map_has_delete.
  destruct (String.eqb_spec key k'); [congruence | reflexivity].
Qed.

(** X4: adding a favorite for a course id that no course has answers 404
    and changes neither the map nor the tables. *)
Theorem favorite_of_missing_course store key id w :
  fails w (length (calls w)) = false ->
  (forall c, In c (courses (db w)) -> course_id c <> id) ->
  exists w',
    Favorites.post_favorites store key id w
    = (Ok ({| Favorites.reply_code := 404;
              Favorites.reply_body := Favorites.CourseNotFound |}, store), w')
    /\ db w' = db w.
Proof.
  intros Hok Hnone. eexists. split.
  { unfold Favorites.post_favorites.
    erewrite bind_ok; [|apply select_ok; exact Hok].
    unfold course_by_id. rewrite filter_none; [reflexivity|].
    intros c Hc. apply Z.eqb_neq. now apply Hnone. }
  reflexivity.
Qed.

Lemma favorite_of_missing_course_witness :
  exists w',
    Favorites.post_favorites [] "99" 99 (Sample.world [])
    = (Ok ({| Favorites.reply_code := 404;
              Favorites.reply_body := Favorites.CourseNotFound |}, []), w')
    /\ db w' = Sample.tables.
Proof.
  apply (favorite_of_missing_course [] "99" 99 (Sample.world [])); [reflexivity|].
  intros c [<- | [<- | []]]; discriminate.
Defined.

(** ** The admin middleware *)

(** X5: [isAdmin] lets a request through exactly when the stored record of
    its user carries the admin flag, which is the test the admin routes make
    themselves.  With a user id on the request and a lookup that does not
    fail: an admin is passed on with [req.adminUser] set for that user; anyone
    else is answered 403; in both cases the lookup is the only storage call
    and the tables are untouched.  Without a user id the answer is 401 and
    the storage is not asked at all. *)
Theorem isAdmin_grants_admins_only req w :
  (truthy_string (AdminAuth.req_user_id req) = false ->
   AdminAuth.isAdmin req w = (Ok (inl (status_json 401 (Message "Unauthorized"))), w))
  /\ (forall uid,
        AdminAuth.req_user_id req = Some uid -> uid <> EmptyString ->
        fails w (length (calls w)) = false ->
        (admin (find_user (db w) uid) = true ->
         exists a,
           AdminAuth.isAdmin req w
           = (Ok (inr {| AdminAuth.req_user_id := Some uid;
                         AdminAuth.req_adminUser := Some a |}),
              record_call (GetUser uid) w)
           /\ AdminAuth.adminUser_userId a = uid
           /\ AdminAuth.adminUser_isAdmin a = true)
        /\ (admin (find_user (db w) uid) = false ->
            exists m,
              AdminAuth.isAdmin req w
              = (Ok (inl (status_json 403 (Message m))), record_call (GetUser uid) w))).
Proof.
  split.
  - intros Hno. unfold AdminAuth.isAdmin. apply try_catch_ok. now rewrite Hno.
  - intros uid Huid Hne Hok.
    assert (Htruthy : truthy_string (AdminAuth.req_user_id req) = true).
    { rewrite Huid. cbn. destruct (String.eqb_spec uid EmptyString); [contradiction | reflexivity]. }
    unfold AdminAuth.isAdmin. rewrite Htruthy, Huid. cbn [negb].
    change (default EmptyString (Some uid)) with uid.
    unfold admin. split; intros Hadmin.
    + destruct (find_user (db w) uid) as [u|] eqn:Hu; [|discriminate].
      eexists. split.
      { apply try_catch_ok. rewrite (bind_ok _ _ _ _ _ (getUser_ok uid w Hok)).
        rewrite Hu, Hadmin. reflexivity. }
      split; reflexivity.
    + destruct (find_user (db w) uid) as [u|] eqn:Hu.
      * eexists. apply try_catch_ok. rewrite (bind_ok _ _ _ _ _ (getUser_ok uid w Hok)).
        rewrite Hu, Hadmin. reflexivity.
      * eexists. apply try_catch_ok. rewrite (bind_ok _ _ _ _ _ (getUser_ok uid w Hok)).
        rewrite Hu. reflexivity.
Qed.

Lemma isAdmin_grants_admins_only_witness :
  (exists a,
     AdminAuth.isAdmin {| AdminAuth.req_user_id := Some "admin";
                          AdminAuth.req_adminUser := None |} (Sample.world [])
     = (Ok (inr {| AdminAuth.req_user_id := Some "admin";
                   AdminAuth.req_adminUser := Some a |}),
        record_call (GetUser "admin") (Sample.world [])))
  /\ (exists m,
        AdminAuth.isAdmin {| AdminAuth.req_user_id := Some "bob";
                             AdminAuth.req_adminUser := None |} (Sample.world [])
        = (Ok (inl (status_json 403 (Message m))),
           record_call (GetUser "bob") (Sample.world []))).
Proof.
  split.
  - destruct (isAdmin_grants_admins_only
                {| AdminAuth.req_user_id := Some "admin"; AdminAuth.req_adminUser := None |}
                (Sample.world [])) as [_ H].
    destruct (H "admin") as [Hyes _]; [reflexivity | discriminate | reflexivity |].
    destruct Hyes as (a & Hrun & _); [reflexivity|]. now exists a.
  - destruct (isAdmin_grants_admins_only
                {| AdminAuth.req_user_id := Some "bob"; AdminAuth.req_adminUser := None |}
                (Sample.world [])) as [_ H].
    destruct (H "bob") as [_ Hno]; [reflexivity | discriminate | reflexivity |].
    now apply Hno.
Defined.

(** X6: the two middlewares compose.  A request that [isAdmin] has passed
    on, whatever the storage did, is passed on by [requireAdmin]; a request
    on which [req.adminUser] was never set is answered 403 by it. *)
Theorem requireAdmin_after_isAdmin req :
  (forall w req' w',
     AdminAuth.isAdmin req w = (Ok (inr req'), w') ->
     AdminAuth.requireAdmin req' = inr req')
  /\ (AdminAuth.req_adminUser req = None ->
      AdminAuth.requireAdmin req
      = inl (status_json 403 (Message "Admin authentication required"))).
Proof.
  split.
  - intros w req' w'. unfold AdminAuth.isAdmin, try_catch, bind, getUser, select, query, ret.
    destruct (truthy_string (AdminAuth.req_user_id req)); cbn [negb]; [|discriminate].
    destruct (fails w (length (calls w))); [discriminate|].
    destruct (find_user _ _) as [u|]; [|discriminate].
    destruct (default false (Schema.isAdmin u)); cbn [negb]; [|discriminate].
    intros H. injection H as <- _. reflexivity.
  - intros Hnone. unfold AdminAuth.requireAdmin. now rewrite Hnone.
Qed.

Lemma requireAdmin_after_isAdmin_witness :
  AdminAuth.requireAdmin {| AdminAuth.req_user_id := Some "bob";
                            AdminAuth.req_adminUser := None |}
  = inl (status_json 403 (Message "Admin authentication required")).
Proof.
  apply (requireAdmin_after_isAdmin
           {| AdminAuth.req_user_id := Some "bob"; AdminAuth.req_adminUser := None |}).
  reflexivity.
Defined.

(** ** Slugs and names *)

Lemma lower_char_fixed c :
  Text.is_lower c || Text.is_digit c || Ascii.eqb c "-"%char = true ->
  Text.lower_char c = c.
Proof.
  unfold Text.lower_char, Text.is_upper, Text.is_lower, Text.is_digit.
  intros H.
  destruct ((65 <=? nat_of_ascii c)%nat && (nat_of_ascii c <=? 90)%nat) eqn:Hup;
    [|reflexivity].
  exfalso. apply andb_true_iff in Hup as [Hlo Hhi].
  apply Nat.leb_le in Hlo, Hhi.
  apply orb_true_iff in H as [H | H].
  - apply orb_true_iff in H as [H | H]; apply andb_true_iff in H as [Ha Hb];
      apply Nat.leb_le in Ha, Hb; lia.
  - apply Ascii.eqb_eq in H. subst c. vm_compute in Hlo. lia.
Qed.

Lemma toLowerCase_fixed s : Text.slug_chars s = true -> Text.toLowerCase s = s.
Proof.
  induction s as [|c s IH]; cbn; [reflexivity|].
  intros H. apply andb_true_iff in H as [Hc Hs].
  now rewrite lower_char_fixed, IH.
Qed.

Lemma hyphen_is_no_letter : Text.is_lower "-" || Text.is_digit "-" = false.
Proof. reflexivity. Qed.

Lemma replace_runs_chars s : forall b, Text.slug_chars (Text.replace_runs s b) = true.
Proof.
  induction s as [|c s IH]; intros b; cbn [Text.replace_runs]; [reflexivity|].
  destruct (Text.is_lower c || Text.is_digit c) eqn:Hc.
  - cbn [Text.slug_chars]. rewrite Hc, IH. reflexivity.
  - destruct b; [apply IH|]. cbn [Text.slug_chars]. rewrite IH. reflexivity.
Qed.

Lemma replace_runs_in_run s : Text.starts_with_hyphen (Text.replace_runs s true) = false.
Proof.
  induction s as [|c s IH]; cbn [Text.replace_runs]; [reflexivity|].
  destruct (Text.is_lower c || Text.is_digit c) eqn:Hc; [|exact IH].
  cbn. destruct (Ascii.eqb_spec c "-"%char) as [->|]; [|reflexivity].
  rewrite hyphen_is_no_letter in Hc. discriminate.
Qed.

Lemma single_hyphens_cons c s :
  Text.single_hyphens (String c s)
  = negb (Ascii.eqb c "-"%char && Text.starts_with_hyphen s) && Text.single_hyphens s.
Proof.
  destruct s as [|d s]; cbn [Text.single_hyphens Text.starts_with_hyphen].
  - now rewrite andb_false_r.
  - reflexivity.
Qed.

Lemma replace_runs_single s : forall b, Text.single_hyphens (Text.replace_runs s b) = true.
Proof.
  induction s as [|c s IH]; intros b; cbn [Text.replace_runs]; [reflexivity|].
  destruct (Text.is_lower c || Text.is_digit c) eqn:Hc.
  - rewrite single_hyphens_cons, IH.
    destruct (Ascii.eqb_spec c "-"%char) as [->|]; [|reflexivity].
    rewrite hyphen_is_no_letter in Hc. discriminate.
  - destruct b; [apply IH|].
    rewrite single_hyphens_cons, IH, replace_runs_in_run. reflexivity.
Qed.

Lemma replace_runs_fixed s : forall b,
  Text.slug_chars s = true -> Text.single_hyphens s = true ->
  (b = true -> Text.starts_with_hyphen s = false) ->
  Text.replace_runs s b = s.
Proof.
  induction s as [|c s IH]; intros b Hchars Hsingle Hstart; [reflexivity|].
  cbn [Text.slug_chars] in Hchars. apply andb_true_iff in Hchars as [Hc Hs].
  rewrite single_hyphens_cons in Hsingle. apply andb_true_iff in Hsingle as [Hcs Hss].
  cbn [Text.replace_runs].
  destruct (Text.is_lower c || Text.is_digit c) eqn:Hletter.
  - f_equal. apply IH; [assumption | assumption | discriminate].
  - cbn [orb] in Hc. apply Ascii.eqb_eq in Hc. subst c.
    destruct b.
    + specialize (Hstart eq_refl). discriminate.
    + f_equal. apply IH; [assumption | assumption |].
      intros _. cbn in Hcs. now destruct (Text.starts_with_hyphen s).
Qed.

(** X7: the slug of a name, whatever the name, is made of the characters
    a-z, 0-9 and the hyphen only, has no two hyphens in a row, and is its own
    slug. *)
Theorem slug_is_clean name :
  Text.slug_chars (Text.slug name) = true
  /\ Text.single_hyphens (Text.slug name) = true
  /\ Text.slug (Text.slug name) = Text.slug name.
Proof.
  unfold Text.slug.
  pose proof (replace_runs_chars (Text.toLowerCase name) false) as Hc.
  pose proof (replace_runs_single (Text.toLowerCase name) false) as Hs.
  split; [exact Hc|]. split; [exact Hs|].
  rewrite (toLowerCase_fixed _ Hc).
  apply replace_runs_fixed; [exact Hc | exact Hs | discriminate].
Qed.

Example slug_of_a_course :
  Text.slug "MSc Engineering Management (2 yrs) -- London" = "msc-engineering-management-2-yrs-london".
Proof. reflexivity. Qed.

Lemma split_spaces_nonempty s : Text.split_spaces s <> [].
Proof.
  destruct s as [|c s]; cbn; [discriminate|].
  destruct (Ascii.eqb c " "); [discriminate|].
  destruct (Text.split_spaces s); discriminate.
Qed.

Lemma join_spaces_cons p ps :
  ps <> [] -> Text.join_spaces (p :: ps) = p +:+ " " +:+ Text.join_spaces ps.
Proof. destruct ps; [contradiction | reflexivity]. Qed.

Lemma join_split s : Text.join_spaces (Text.split_spaces s) = s.
Proof.
  induction s as [|c s IH]; [reflexivity|].
  cbn [Text.split_spaces].
  destruct (Ascii.eqb_spec c " "%char) as [->|Hne].
  - rewrite join_spaces_cons by apply split_spaces_nonempty. now rewrite IH.
  - pose proof (split_spaces_nonempty s) as Hs.
    destruct (Text.split_spaces s) as [|p ps] eqn:Hsplit; [contradiction|].
    destruct ps as [|q ps].
    + cbn in *. now rewrite IH.
    + change (Text.join_spaces (String c p :: q :: ps))
        with (String c (p +:+ " " +:+ Text.join_spaces (q :: ps))).
      now rewrite <- IH.
Qed.

Lemma first_piece_has_no_space s :
  Text.has_space (hd EmptyString (Text.split_spaces s)) = false.
Proof.
  induction s as [|c s IH]; [reflexivity|].
  cbn [Text.split_spaces].
  destruct (Ascii.eqb c " "%char) eqn:Hc; [reflexivity|].
  pose proof (split_spaces_nonempty s) as Hs.
  destruct (Text.split_spaces s) as [|p ps]; [contradiction|].
  cbn in *. now rewrite Hc.
Qed.


Lemma or_null_default s : default EmptyString (Text.or_null s) = s.
Proof.
  unfold Text.or_null. destruct (String.eqb_spec s EmptyString) as [->|]; reflexivity.
Qed.

Lemma has_space_app a b :
  Text.has_space (a +:+ b) = Text.has_space a || Text.has_space b.
Proof.
  induction a as [|c a IH]; [reflexivity|].
  change (String c a +:+ b) with (String c (a +:+ b)).
  cbn [Text.has_space]. now rewrite IH, orb_assoc.
Qed.

(** X8: the first and last name of a new user put the full name back
    together.  The first name has no space; a full name without a space is
    the first name, with no last name; a full name with a space is the first
    name, one space and the last name (a missing part standing for the empty
    text). *)
Theorem names_of_full_name s :
  let first := default EmptyString (Text.firstName_of (Some s)) in
  let last := default EmptyString (Text.lastName_of (Some s)) in
  Text.has_space first = false
  /\ (Text.has_space s = false -> first = s /\ Text.lastName_of (Some s) = None)
  /\ (Text.has_space s = true -> s = first +:+ " " +:+ last).
Proof.
  cbv zeta. unfold Text.firstName_of, Text.lastName_of. rewrite !or_null_default.
  pose proof (join_split s) as Hjoin.
  pose proof (first_piece_has_no_space s) as Hfirst.
  pose proof (split_spaces_nonempty s) as Hne.
  destruct (Text.split_spaces s) as [|p ps]; [contradiction|].
  cbn [hd tl] in *. split; [exact Hfirst|].
  destruct ps as [|q ps].
  - cbn in Hjoin. subst p. split; [now split|]. intros H. congruence.
  - rewrite join_spaces_cons in Hjoin by discriminate.
    split; [|now intros _].
    intros Hno. rewrite <- Hjoin in Hno.
    rewrite !has_space_app in Hno. cbn in Hno. rewrite orb_true_r in Hno. discriminate.
Qed.

Example names_of_a_full_name :
  Text.firstName_of (Some "Ahmed Abdur Rahman") = Some "Ahmed"
  /\ Text.lastName_of (Some "Ahmed Abdur Rahman") = Some "Abdur Rahman"
  /\ Text.lastName_of (Some "Ahmed") = None
  /\ Text.firstName_of (Some " Rahman") = None.
Proof. repeat split. Qed.

(** ** More on POST /api/applications *)

Lemma submission_lookup uid (req_body : gmap string JValue) k :
  k <> "status" -> k <> "userId" -> submission uid req_body !! k = req_body !! k.
Proof.
  intros Hs Hu. unfold submission.
  rewrite lookup_insert_ne by congruence. now rewrite lookup_insert_ne by congruence.
Qed.

Lemma integers_not_numbers items v :
  In v items -> (forall x, v <> JNum x) -> integers items = None.
Proof.
  induction items as [|i items IH]; intros Hin Hv; [destruct Hin|].
  destruct Hin as [-> | Hin].
  - destruct v; try reflexivity. now destruct (Hv x).
  - cbn [integers]. rewrite (IH Hin Hv).
    destruct i; try reflexivity. now destruct (integer_of_number x).
Qed.

(** X9: the handler of POST /api/applications, entered once [requireAuth]
    has passed the request on, refuses a body that lacks [fullName], [email]
    or [phone] as a string, or whose [selectedCourses] is missing, is not an
    array, or is an array holding a value that is not a number: it answers
    500 with "Failed to create application", makes no storage call of its own
    and changes nothing.  (What [requireAuth] did before the handler, the
    lookup of the caller and the creation of a first-time caller, is not part
    of this statement.) *)
Theorem refused_submission_changes_nothing uid req_body w :
  required_string req_body "fullName" = None
  \/ required_string req_body "email" = None
  \/ required_string req_body "phone" = None
  \/ (forall items,
        req_body !! "selectedCourses" = Some (JArr items) ->
        exists v, In v items /\ forall x, v <> JNum x) ->
  post_applications uid req_body w
  = (Ok {| code := 500; body := Message "Failed to create application" |}, w).
Proof.
  intros H.
  assert (H' : required_string req_body "fullName" = None
               \/ required_string req_body "email" = None
               \/ required_string req_body "phone" = None
               \/ integer_array req_body "selectedCourses" = None).
  { destruct H as [H | [H | [H | H]]]; [tauto | tauto | tauto |].
    right. right. right. unfold integer_array.
    destruct (req_body !! "selectedCourses") as [[]|]; try reflexivity.
    destruct (H items eq_refl) as (v & Hin & Hv).
    exact (integers_not_numbers items v Hin Hv). }
  clear H. rename H' into H.
  assert (Hparse : insertApplicationSchema_safeParse (submission uid req_body) = None).
  { unfold insertApplicationSchema_safeParse, required_string, integer_array in *.
    rewrite (submission_lookup uid req_body "fullName") by discriminate.
    rewrite (submission_lookup uid req_body "email") by discriminate.
    rewrite (submission_lookup uid req_body "phone") by discriminate.
    rewrite (submission_lookup uid req_body "selectedCourses") by discriminate.
    destruct (submission uid req_body !! "userId") as [[]|]; try reflexivity.
    destruct H as [H | [H | [H | H]]]; rewrite H.
    - reflexivity.
    - now destruct (match req_body !! "fullName" with Some (JStr s) => Some s | _ => None end).
    - destruct (match req_body !! "fullName" with Some (JStr s) => Some s | _ => None end);
        [|reflexivity].
      now destruct (match req_body !! "email" with Some (JStr s) => Some s | _ => None end).
    - destruct (match req_body !! "fullName" with Some (JStr s) => Some s | _ => None end);
        [|reflexivity].
      destruct (match req_body !! "email" with Some (JStr s) => Some s | _ => None end);
        [|reflexivity].
      now destruct (match req_body !! "phone" with Some (JStr s) => Some s | _ => None end). }
  unfold post_applications, insertApplicationSchema_parse. now rewrite Hparse.
Qed.

Lemma refused_submission_changes_nothing_witness :
  post_applications "alice" (delete "phone" Sample.submission_body) (Sample.world [])
  = (Ok {| code := 500; body := Message "Failed to create application" |}, Sample.world [])
  /\ post_applications "alice" (<["selectedCourses" := JStr "3"]> Sample.submission_body)
       (Sample.world [])
     = (Ok {| code := 500; body := Message "Failed to create application" |}, Sample.world []).
Proof.
  split.
  - apply refused_submission_changes_nothing. right. right. left. reflexivity.
  - reflexivity.
Defined.

(** ** More on the status update *)

Lemma find_unique {A} (p : A -> bool) l a :
  In a l -> p a = true -> (forall b, In b l -> p b = true -> b = a) ->
  find p l = Some a.
Proof.
  intros Hin Hp Huniq.
  destruct (find_present p l a Hin Hp) as (b & Hfind & Hb & Hpb).
  now rewrite Hfind, (Huniq b Hb Hpb).
Qed.

Lemma updated_row id st t apps a :
  In a apps -> application_id a = id ->
  (forall b, In b apps -> application_id b = id -> b = a) ->
  head (List.filter (fun x => application_id x =? id) (map (set_status id st t) apps))
  = Some (set_status id st t a).
Proof.
  induction apps as [|x apps IH]; intros Hin Hid Huniq; [destruct Hin|].
  cbn [map List.filter]. rewrite set_status_id.
  destruct (Z.eqb_spec (application_id x) id) as [Hx|Hx].
  - cbn [head]. f_equal. f_equal. apply Huniq; [now left | exact Hx].
  - destruct Hin as [->|Hin]; [contradiction|].
    apply IH; [exact Hin | exact Hid|].
    intros b Hb. apply Huniq. now right.
Qed.

(** X10: when an admin sets a non-empty status on the one application that
    has the id, its owner is a user and no call fails, the answer is the
    updated row; that row alone changes (new status, [updatedAt] at the time
    of the call); and exactly one notification is added, unread, for the
    owner, whose message names the course and the new status. *)
Theorem patch_status_updates_and_notifies uid id st app w :
  let k := length (calls w) in
  (forall i, (i <= 5)%nat -> fails w (i + k) = false) ->
  admin (find_user (db w) uid) = true ->
  st <> EmptyString ->
  In app (applications (db w)) ->
  application_id app = id ->
  (forall b, In b (applications (db w)) -> application_id b = id -> b = app) ->
  user_exists (db w) (application_userId app) = true ->
  exists c w',
    patch_application_status uid id (Some st) w
    = (Ok (json (UpdatedApplication (Some (set_status id st (now w) app)))), w')
    /\ applications (db w') = map (set_status id st (now w)) (applications (db w))
    /\ (forall b, In b (applications (db w)) -> application_id b <> id ->
        set_status id st (now w) b = b)
    /\ notifications (db w') = notifications (db w) ++ [c]
    /\ notification_userId c = application_userId app
    /\ isRead c = Some false
    /\ message c
       = "Your application status for "
         +:+ course_info app
               (flat_map (join_universities (universities (db w))) (courses (db w)))
               (universities (db w))
         +:+ " has been updated to: " +:+ st.
Proof.
  intros k Hok Hadmin Hst Hin Hid Huniq Howner.
  assert (Htruthy : truthy_string (Some st) = true).
  { cbn. destruct (String.eqb_spec st EmptyString); [contradiction | reflexivity]. }
  assert (Hfind : find (fun a => application_id a =? id)
                    (order_by_desc application_createdAt (applications (db w))) = Some app).
  { apply find_unique.
    - now apply order_by_desc_In.
    - now apply Z.eqb_eq.
    - intros b Hb Hpb. apply Huniq; [now apply order_by_desc_In in Hb | now apply Z.eqb_eq]. }
  eexists _, _. split.
  { unfold patch_application_status. apply try_catch_ok.
    rewrite (bind_ok _ _ _ _ _ (getUser_ok uid w (Hok 0%nat ltac:(lia)))).
    rewrite Hadmin, Htruthy. cbn [negb].
    change (default EmptyString (Some st)) with st.
    erewrite bind_ok; [|apply getAllApplications_ok; exact (Hok 1%nat ltac:(lia))].
    cbn [db record_call]. rewrite Hfind.
    erewrite bind_ok; [|apply query_ok; [exact (Hok 2%nat ltac:(lia)) | reflexivity]].
    erewrite bind_ok; [|apply select_ok; exact (Hok 3%nat ltac:(lia))].
    erewrite bind_ok; [|apply select_ok; exact (Hok 4%nat ltac:(lia))].
    erewrite bind_ok;
      [|apply query_ok; [exact (Hok 5%nat ltac:(lia)) |
                         cbn [db with_db record_call users user_exists new_userId];
                         unfold user_exists in Howner |- *; cbn [users];
                         rewrite Howner; reflexivity]].
    cbn [db now with_db record_call].
    rewrite (updated_row id st (now w) _ app Hin Hid Huniq). reflexivity. }
  cbn. split; [reflexivity|]. split.
  { intros b _ Hb. unfold set_status.
    destruct (Z.eqb_spec (application_id b) id); [contradiction | reflexivity]. }
  repeat split.
  cbn [message new_notification new_message].
  rewrite (filter_all (fun _ : Course => true)) by reflexivity. reflexivity.
Qed.

Lemma patch_status_updates_and_notifies_witness :
  exists c w',
    patch_application_status "admin" 1 (Some "Visa Approved") (Sample.world [])
    = (Ok (json (UpdatedApplication
                   (Some (set_status 1 "Visa Approved" 1000
                            (Sample.application_of 1 "alice" "Submitted"))))), w')
    /\ notifications (db w') = notifications Sample.tables ++ [c]
    /\ notification_userId c = "alice"
    /\ message c
       = "Your application status for MSc Engineering Management at University of Oxford has been updated to: Visa Approved".
Proof.
  destruct (patch_status_updates_and_notifies "admin" 1 "Visa Approved"
              (Sample.application_of 1 "alice" "Submitted") (Sample.world []))
    as (c & w' & Hrun & _ & _ & Hn & Hu & _ & Hm).
  - intros i _. reflexivity.
  - reflexivity.
  - discriminate.
  - now left.
  - reflexivity.
  - intros b [<- | []] _. reflexivity.
  - reflexivity.
  - exists c, w'. split; [exact Hrun|]. split; [exact Hn|]. split; [exact Hu|].
    rewrite Hm. vm_compute. reflexivity.
Defined.

(** ** More on the broadcast *)

Lemma for_each_unknown_user (mk : string -> InsertNotification)
    (mk_userId : forall id, new_userId (mk id) = id) done : forall bad rest w,
  (forall id, In id done -> user_exists (db w) id = true) ->
  user_exists (db w) bad = false ->
  (forall i, (i <= length done)%nat -> fails w (length (calls w) + i) = false) ->
  exists ns w',
    for_each (fun id => createNotification (mk id)) (done ++ bad :: rest) w
    = (Throw ForeignKeyViolation, w')
    /\ map notification_userId ns = done
    /\ notifications (db w') = notifications (db w) ++ ns.
Proof.
  induction done as [|d done IH]; intros bad rest w Hex Hbad Hok.
  - exists [], (record_call (CreateNotification (mk bad)) w). split.
    + cbn [app for_each]. apply bind_throw. unfold createNotification, query.
      rewrite <- (Nat.add_0_r (length (calls w))), (Hok 0%nat) by (cbn; lia).
      now rewrite mk_userId, Hbad.
    + cbn. now rewrite app_nil_r.
  - destruct (createNotification_ok (mk d) w)
      as (c & w1 & Hrun & Hc & _ & Hn1 & Hu1 & _ & Hf1 & Hcalls1).
    { rewrite <- (Nat.add_0_r (length (calls w))). apply Hok. lia. }
    { rewrite mk_userId. apply Hex. now left. }
    destruct (IH bad rest w1) as (ns & w' & Hrest & Hids & Hn).
    { intros id' Hin. unfold user_exists. rewrite Hu1. apply Hex. now right. }
    { unfold user_exists. rewrite Hu1. exact Hbad. }
    { intros i Hi. rewrite Hf1, Hcalls1. cbn [length].
      replace (S (length (calls w)) + i)%nat with (length (calls w) + S i)%nat by lia.
      apply Hok. cbn. lia. }
    exists (c :: ns), w'. split.
    { cbn [app for_each]. rewrite (bind_ok _ _ _ _ _ Hrun).
      now rewrite (bind_throw _ _ _ _ _ Hrest). }
    cbn [map]. rewrite Hc, mk_userId, Hids, Hn, Hn1.
    rewrite <- app_assoc. split; reflexivity.
Qed.

(** X11: a broadcast by an admin to listed recipients, with a non-empty
    type, title and message.  When every recipient is a user and no call
    fails there is one new notification per listed id, in the order of the
    list and once per occurrence, and the answer reports their number.  When
    a listed id is not a user, the answer is a 500 and the notifications of
    the recipients listed before it stay in the table. *)
Theorem broadcast_to_listed_users uid first others ty ti me w :
  let k := length (calls w) in
  let ids := first :: others in
  fails w k = false ->
  admin (find_user (db w) uid) = true ->
  truthy_string ty = true -> truthy_string ti = true -> truthy_string me = true ->
  (forall i, (i < length ids)%nat -> fails w (1 + k + i) = false) ->
  ((forall id, In id ids -> user_exists (db w) id = true) ->
   exists ns w',
     post_admin_notifications uid (Some ids) ty ti me w
     = (Ok (json (Broadcast ("Notification sent to " +:+ pretty (count ids) +:+ " users")
                    ns)), w')
     /\ map notification_userId ns = ids
     /\ notifications (db w') = notifications (db w) ++ ns)
  /\ (forall done bad rest,
        ids = done ++ bad :: rest ->
        (forall id, In id done -> user_exists (db w) id = true) ->
        user_exists (db w) bad = false ->
        exists ns w',
          post_admin_notifications uid (Some ids) ty ti me w
          = (Ok (status_json 500 (Message "Failed to send notification")), w')
          /\ map notification_userId ns = done
          /\ notifications (db w') = notifications (db w) ++ ns).
Proof.
  intros k ids H0 Hadmin Hty Hti Hme Hok.
  set (mk := fun id : string =>
               {| new_userId := id; new_title := default EmptyString ti;
                  new_message := default EmptyString me; new_type := ty;
                  new_isRead := Some false |}).
  split.
  - intros Hex.
    destruct (for_each_created mk (fun _ => eq_refl) ids (record_call (GetUser uid) w))
      as (ns & w' & Hrun & Hids & Hn & _).
    { exact Hex. }
    { intros i Hi. cbn [calls record_call fails length]. apply (Hok i Hi). }
    exists ns, w'. split; [|split; [exact Hids | exact Hn]].
    unfold post_admin_notifications. apply try_catch_ok.
    rewrite (bind_ok _ _ _ _ _ (getUser_ok uid w H0)).
    rewrite Hadmin, Hty, Hti, Hme. cbn [negb orb].
    rewrite (bind_ok _ _ _ _ _ (eq_refl : ret ids _ = (Ok ids, _))).
    fold mk. rewrite (bind_ok _ _ _ _ _ Hrun).
    assert (Hlen : length ns = length ids).
    { now rewrite <- (length_map notification_userId ns), Hids. }
    unfold ret, count. now rewrite Hlen.
  - intros done bad rest Hsplit Hex Hbad.
    destruct (for_each_unknown_user mk (fun _ => eq_refl) done bad rest
                (record_call (GetUser uid) w))
      as (ns & w' & Hrun & Hids & Hn).
    { exact Hex. }
    { exact Hbad. }
    { intros i Hi. cbn [calls record_call fails length]. apply Hok.
      rewrite Hsplit, length_app. cbn. lia. }
    exists ns, w'. split; [|split; [exact Hids | exact Hn]].
    unfold post_admin_notifications. erewrite try_catch_throw; [reflexivity|].
    rewrite (bind_ok _ _ _ _ _ (getUser_ok uid w H0)).
    rewrite Hadmin, Hty, Hti, Hme. cbn [negb orb].
    rewrite (bind_ok _ _ _ _ _ (eq_refl : ret ids _ = (Ok ids, _))).
    fold mk. rewrite Hsplit. now rewrite (bind_throw _ _ _ _ _ Hrun).
Qed.

Lemma broadcast_to_listed_users_witness :
  (exists ns w',
     post_admin_notifications "admin" (Some ["bob"; "bob"]) (Some "info") (Some "Open day")
       (Some "Join us on Friday") (Sample.world [])
     = (Ok (json (Broadcast "Notification sent to 2 users" ns)), w')
     /\ map notification_userId ns = ["bob"; "bob"])
  /\ (exists ns w',
        post_admin_notifications "admin" (Some ["bob"; "carol"]) (Some "info")
          (Some "Open day") (Some "Join us on Friday") (Sample.world [])
        = (Ok (status_json 500 (Message "Failed to send notification")), w')
        /\ map notification_userId ns = ["bob"]
        /\ notifications (db w') = notifications Sample.tables ++ ns).
Proof.
  split.
  - destruct (broadcast_to_listed_users "admin" "bob" ["bob"] (Some "info") (Some "Open day")
                (Some "Join us on Friday") (Sample.world []))
      as [Hall _]; try reflexivity.
    destruct Hall as (ns & w' & Hrun & Hids & _).
    { intros id [<- | [<- | []]]; reflexivity. }
    exists ns, w'. split; [exact Hrun | exact Hids].
  - destruct (broadcast_to_listed_users "admin" "bob" ["carol"] (Some "info") (Some "Open day")
                (Some "Join us on Friday") (Sample.world []))
      as [_ Hbad]; try reflexivity.
    destruct (Hbad ["bob"] "carol" []) as (ns & w' & Hrun & Hids & Hn).
    { reflexivity. }
    { intros id [<- | []]. reflexivity. }
    { reflexivity. }
    exists ns, w'. split; [exact Hrun|]. split; [exact Hids | exact Hn].
Defined.

(** ** More on the statistics *)

Lemma set_add_In seen x y : In y (set_add seen x) <-> y = x \/ In y seen.
Proof.
  induction seen as [|z seen IH]; cbn [set_add].
  - cbn. intuition.
  - destruct (String.eqb_spec z x) as [->|Hne]; cbn [In].
    + intuition.
    + rewrite IH. intuition.
Qed.

Lemma set_add_NoDup seen x : NoDup seen -> NoDup (set_add seen x).
Proof.
  induction seen as [|z seen IH]; intros Hnd; cbn [set_add].
  - apply NoDup_singleton.
  - destruct (String.eqb_spec z x) as [->|Hne]; [exact Hnd|].
    apply NoDup_cons in Hnd as [Hz Hnd].
    apply NoDup_cons. split; [|now apply IH].
    intros Hin. apply list_elem_of_In, set_add_In in Hin as [-> | Hin]; [congruence|].
    apply Hz, list_elem_of_In, Hin.
Qed.

Lemma fold_set_add xs : forall seen,
  NoDup seen ->
  NoDup (fold_left set_add xs seen)
  /\ (forall y, In y (fold_left set_add xs seen) <-> In y xs \/ In y seen).
Proof.
  induction xs as [|x xs IH]; intros seen Hnd; cbn [fold_left].
  - split; [exact Hnd|]. cbn. intuition.
  - destruct (IH (set_add seen x) (set_add_NoDup seen x Hnd)) as [Hn Hin].
    split; [exact Hn|]. intros y. rewrite Hin, set_add_In. cbn. intuition.
Qed.

(** [Array.from(new Set(xs))] holds each element of [xs] once. *)
Lemma distinct_spec xs :
  NoDup (distinct xs) /\ (forall y, In y (distinct xs) <-> In y xs).
Proof.
  destruct (fold_set_add xs [] NoDup_nil_2) as [Hn Hin].
  split; [exact Hn|]. intros y. rewrite (Hin y). cbn. intuition.
Qed.

Lemma count_filter_le {A} (p : A -> bool) l : 0 <= count (List.filter p l) <= count l.
Proof.
  unfold count. pose proof (List.filter_length_le p l). lia.
Qed.

Lemma filter_length_Permutation {A} (p : A -> bool) l l' :
  Permutation l l' -> length (List.filter p l) = length (List.filter p l').
Proof.
  induction 1 as [|x l l' _ IH|x y l|l l' l'' _ IH1 _ IH2]; cbn [List.filter].
  - reflexivity.
  - destruct (p x); cbn [length]; congruence.
  - destruct (p x), (p y); reflexivity.
  - congruence.
Qed.

(** The rows counted as of this week are those created strictly after the
    moment 604800000 milliseconds before the clock was read, in whatever
    order the listing returns them. *)
Lemma count_this_week {A} (key created : A -> option Timestamp) t rows :
  count (List.filter (fun r => this_week t (created r)) (order_by_desc key rows))
  = count (List.filter (fun r => match created r with
                                 | Some c => t - 604800000 <? c
                                 | None => false
                                 end) rows).
Proof.
  unfold count. f_equal.
  rewrite (filter_length_Permutation _ _ _ (order_by_desc_Permutation key rows)).
  apply (f_equal (@length A)), List.filter_ext. intros r. unfold this_week.
  destruct (created r); reflexivity.
Qed.

(** Without a condition the listing of the courses is the whole join. *)
Lemma all_courses us cs :
  flat_map (join_universities us) (List.filter (fun c => forallb (fun p => p c) []) cs)
  = flat_map (join_universities us) cs.
Proof. f_equal. apply filter_all. reflexivity. Qed.

(** When no two universities share an id the join has one row per course. *)
Lemma matches_at_most_one us (k : Z) :
  NoDup (map university_id us) ->
  (length (List.filter (fun u => (university_id u =? k)%Z) us) <= 1)%nat.
Proof.
  induction us as [|u us IH]; intros Hnd; cbn [List.filter map length]; [lia|].
  cbn [map] in Hnd. apply NoDup_cons in Hnd as [Hu Hnd].
  destruct (Z.eqb_spec (university_id u) k) as [Hk|Hk]; [|now apply IH].
  rewrite filter_none; [cbn; lia|].
  intros v Hv. apply Z.eqb_neq. intros Hvk. apply Hu.
  apply list_elem_of_In, in_map_iff. exists v. split; [congruence | exact Hv].
Qed.

Lemma join_universities_one_row us c :
  NoDup (map university_id us) -> length (join_universities us c) = 1%nat.
Proof.
  intros Hnd. unfold join_universities.
  pose proof (matches_at_most_one us (universityId c) Hnd) as Hle.
  destruct (List.filter (fun u => university_id u =? universityId c) us) as [|m [|m' ms]];
    [reflexivity | reflexivity | cbn in Hle; lia].
Qed.

Lemma join_one_row_per_course us cs :
  NoDup (map university_id us) ->
  count (flat_map (join_universities us) cs) = count cs.
Proof.
  intros Hnd. unfold count. f_equal.
  induction cs as [|c cs IH]; [reflexivity|].
  change (flat_map (join_universities us) (c :: cs))
    with (join_universities us c ++ flat_map (join_universities us) cs).
  rewrite length_app, IH, (join_universities_one_row us c Hnd). reflexivity.
Qed.

(** X12: the handler of /api/admin-dashboard-stats makes no admin check.
    Once [requireAuth] has passed the request on, whoever the caller is,
    admin or not, when no query fails the handler answers 200 with the sizes
    of the users, applications and universities tables and the number of rows
    of the courses listing, both weekly counters 0 and no final conversion
    rate; the conversion rate is 0 without users and otherwise
    [Math.round((applications / users) * 100)].  The storage calls of the
    handler itself are the four listings, users, applications, courses and
    universities in this order: unlike the handlers under /api/admin/ it does
    not look the caller up; and it leaves the tables untouched.  (What
    [requireAuth] did before the handler is not part of this statement.) *)
Theorem dashboard_stats_for_any_caller uid w :
  let k := length (calls w) in
  (forall i, (i <= 3)%nat -> fails w (i + k) = false) ->
  exists s w',
    get_admin_dashboard_stats uid w = (Ok {| code := 200; body := StatsBody s |}, w')
    /\ db w' = db w
    /\ calls w' = [GetUniversities; GetCourses; GetAllApplications; GetUsers] ++ calls w
    /\ totalUsers s = count (users (db w))
    /\ totalApplications s = count (applications (db w))
    /\ totalUniversities s = count (universities (db w))
    /\ totalCourses s
       = count (flat_map (join_universities (universities (db w))) (courses (db w)))
    /\ (NoDup (map university_id (universities (db w))) ->
        totalCourses s = count (courses (db w)))
    /\ newUsersThisWeek s = 0
    /\ newApplicationsThisWeek s = 0
    /\ finalConversionRate s = None
    /\ conversionRate s
       = if 0 <? count (users (db w))
         then percentage (count (applications (db w))) (count (users (db w)))
         else 0%float.
Proof.
  intros k Hok. eexists _, _. split.
  { unfold get_admin_dashboard_stats. apply try_catch_ok.
    erewrite bind_ok; [|apply getUsers_ok; exact (Hok 0%nat ltac:(lia))].
    erewrite bind_ok; [|apply getAllApplications_ok; exact (Hok 1%nat ltac:(lia))].
    erewrite bind_ok; [|apply select_ok; exact (Hok 2%nat ltac:(lia))].
    erewrite bind_ok; [|apply select_ok; exact (Hok 3%nat ltac:(lia))].
    reflexivity. }
  cbn [db calls record_call totalUsers totalApplications totalUniversities totalCourses
       newUsersThisWeek newApplicationsThisWeek finalConversionRate conversionRate].
  rewrite all_courses.
  assert (Hu : count (order_by_desc user_createdAt (users (db w))) = count (users (db w))).
  { unfold count. now rewrite order_by_desc_length. }
  assert (Ha : count (order_by_desc application_createdAt (applications (db w)))
               = count (applications (db w))).
  { unfold count. now rewrite order_by_desc_length. }
  rewrite Hu, Ha.
  split; [reflexivity|]. split; [reflexivity|]. split; [reflexivity|].
  split; [reflexivity|]. split; [reflexivity|]. split; [reflexivity|].
  split; [apply join_one_row_per_course|].
  repeat split.
Qed.

Lemma dashboard_stats_for_any_caller_witness :
  exists s w',
    get_admin_dashboard_stats "bob" (Sample.world [])
    = (Ok {| code := 200; body := StatsBody s |}, w')
    /\ db w' = Sample.tables
    /\ totalUsers s = 3
    /\ totalCourses s = 2
    /\ totalUniversities s = 1
    /\ conversionRate s = 33%float.
Proof.
  destruct (dashboard_stats_for_any_caller "bob" (Sample.world []))
    as (s & w' & Hrun & Hdb & _ & Hu & _ & Hn & Hc & _ & _ & _ & _ & Hrate).
  - intros i _. reflexivity.
  - exists s, w'. split; [exact Hrun|]. split; [exact Hdb|]. split; [exact Hu|].
    split; [rewrite Hc; reflexivity|]. split; [exact Hn|].
    rewrite Hrate. vm_compute. reflexivity.
Defined.

(** X13: what [/api/admin/stats] answers to an admin when no query fails.
    The tables are untouched.  The totals are the sizes of the users,
    applications and universities tables and the number of rows of the
    courses listing, which is the number of courses when no two universities
    share an id.  Each weekly counter is the number of rows of its table
    whose creation time is strictly later than 604800000 milliseconds (seven
    days) before the clock; a row without a creation time is not counted.
    The two rates are [Math.round((a / n) * 100)] where, for the conversion
    rate, [a] is the number of distinct users who own an application and [n]
    the number of users, and for the final rate, [a] is the number of
    distinct users who own an application with the status "Visa Approved" and
    [n] the number of distinct owners; a rate whose [n] is 0 is 0. *)
Theorem admin_stats_of_the_tables uid w :
  let k := length (calls w) in
  (forall i, (i <= 4)%nat -> fails w (i + k) = false) ->
  admin (find_user (db w) uid) = true ->
  exists s w' owners approved,
    get_admin_stats uid w = (Ok {| code := 200; body := StatsBody s |}, w')
    /\ db w' = db w
    /\ totalUsers s = count (users (db w))
    /\ totalApplications s = count (applications (db w))
    /\ totalUniversities s = count (universities (db w))
    /\ totalCourses s
       = count (flat_map (join_universities (universities (db w))) (courses (db w)))
    /\ (NoDup (map university_id (universities (db w))) ->
        totalCourses s = count (courses (db w)))
    /\ newUsersThisWeek s
       = count (List.filter (fun u => match user_createdAt u with
                                      | Some c => now w - 604800000 <? c
                                      | None => false
                                      end) (users (db w)))
    /\ newApplicationsThisWeek s
       = count (List.filter (fun a => match application_createdAt a with
                                      | Some c => now w - 604800000 <? c
                                      | None => false
                                      end) (applications (db w)))
    /\ 0 <= newUsersThisWeek s <= totalUsers s
    /\ 0 <= newApplicationsThisWeek s <= totalApplications s
    /\ NoDup owners
    /\ (forall u, In u owners <->
                  exists a, In a (applications (db w)) /\ application_userId a = u)
    /\ NoDup approved
    /\ (forall u, In u approved <->
                  exists a, In a (applications (db w)) /\ application_userId a = u
                            /\ status a = Some "Visa Approved")
    /\ conversionRate s
       = (if 0 <? count (users (db w))
          then percentage (count owners) (count (users (db w))) else 0%float)
    /\ finalConversionRate s
       = Some (if 0 <? count owners
               then percentage (count approved) (count owners) else 0%float).
Proof.
  intros k Hok Hadmin.
  set (apps := order_by_desc application_createdAt (applications (db w))).
  exists (compute_stats (now w) (order_by_desc user_createdAt (users (db w))) apps
            (flat_map (join_universities (universities (db w)))
               (List.filter (fun c => forallb (fun p => p c) []) (courses (db w))))
            (universities (db w))).
  eexists.
  exists (distinct (map application_userId apps)),
         (distinct (map application_userId (List.filter is_visa_approved apps))).
  split.
  { unfold get_admin_stats. apply try_catch_ok.
    rewrite (bind_ok _ _ _ _ _ (getUser_ok uid w (Hok 0%nat ltac:(lia)))).
    rewrite Hadmin. cbn [negb].
    erewrite bind_ok; [|apply getUsers_ok; exact (Hok 1%nat ltac:(lia))].
    erewrite bind_ok; [|apply getAllApplications_ok; exact (Hok 2%nat ltac:(lia))].
    erewrite bind_ok; [|apply select_ok; exact (Hok 3%nat ltac:(lia))].
    erewrite bind_ok; [|apply select_ok; exact (Hok 4%nat ltac:(lia))].
    reflexivity. }
  split; [reflexivity|].
  cbn [compute_stats totalUsers totalApplications totalCourses totalUniversities
       newUsersThisWeek newApplicationsThisWeek conversionRate finalConversionRate].
  assert (Hu : count (order_by_desc user_createdAt (users (db w))) = count (users (db w))).
  { unfold count. now rewrite order_by_desc_length. }
  assert (Ha : count apps = count (applications (db w))).
  { unfold count, apps. now rewrite order_by_desc_length. }
  rewrite Hu, Ha, all_courses.
  split; [reflexivity|]. split; [reflexivity|]. split; [reflexivity|].
  split; [reflexivity|].
  split; [apply join_one_row_per_course|].
  split; [apply count_this_week|].
  split; [apply count_this_week|].
  split; [rewrite <- Hu; apply count_filter_le|].
  split; [rewrite <- Ha; apply count_filter_le|].
  destruct (distinct_spec (map application_userId apps)) as [Hn1 Hin1].
  destruct (distinct_spec (map application_userId (List.filter is_visa_approved apps)))
    as [Hn2 Hin2].
  split; [exact Hn1|]. split.
  { intros u. rewrite Hin1, in_map_iff. unfold apps.
    split; intros (a & H1 & H2); exists a.
    - apply order_by_desc_In in H2. now split.
    - split; [exact H2|]. apply order_by_desc_In. exact H1. }
  split; [exact Hn2|]. split.
  { intros u. rewrite Hin2, in_map_iff. unfold apps, is_visa_approved.
    split.
    - intros (a & H1 & H2). apply List.filter_In in H2 as [H2 H3].
      apply order_by_desc_In in H2. exists a. split; [exact H2|]. split; [exact H1|].
      destruct (status a) as [st|]; [|discriminate].
      apply String.eqb_eq in H3. now subst.
    - intros (a & H1 & H2 & H3). exists a. split; [exact H2|].
      apply List.filter_In. split; [now apply order_by_desc_In|].
      now rewrite H3. }
  split; reflexivity.
Qed.

Lemma admin_stats_of_the_tables_witness :
  exists s w',
    get_admin_stats "admin" Cases.week = (Ok {| code := 200; body := StatsBody s |}, w')
    /\ db w' = Cases.week_tables
    /\ totalUsers s = 4
    /\ totalApplications s = 2
    /\ totalCourses s = 3
    /\ totalUniversities s = 1
    /\ newUsersThisWeek s = 1
    /\ newApplicationsThisWeek s = 1
    /\ conversionRate s = 25%float
    /\ finalConversionRate s = Some 0%float.
Proof.
  destruct (admin_stats_of_the_tables "admin" Cases.week)
    as (s & w' & owners & approved & Hrun & Hdb & Hu & Ha & Hn & _ & Hc & Hwu & Hwa & _).
  - intros i _. reflexivity.
  - reflexivity.
  - exists s, w'. split; [exact Hrun|]. split; [exact Hdb|].
    split; [exact Hu|]. split; [exact Ha|].
    split; [rewrite Hc; [reflexivity | repeat constructor; intros H; inversion H]|].
    split; [exact Hn|]. split; [exact Hwu|]. split; [exact Hwa|].
    revert Hrun. vm_compute. intros Hrun. injection Hrun as <- _.
    split; reflexivity.
Defined.

(** ** The catalog *)

Lemma join_universities_In us c r :
  In r (join_universities us c) ->
  course r = c
  /\ match university r with
     | Some u => In u us /\ university_id u = universityId c
     | None => forall u, In u us -> university_id u <> universityId c
     end.
Proof.
  intros Hr. split; [now apply join_universities_course in Hr|].
  unfold join_universities in Hr.
  destruct (List.filter (fun u => university_id u =? universityId c) us) as [|m ms] eqn:Hf.
  - destruct Hr as [<- | []]. cbn. intros u Hu Heq.
    assert (Hin : In u (List.filter (fun u => university_id u =? universityId c) us)).
    { apply List.filter_In. split; [exact Hu | now apply Z.eqb_eq]. }
    rewrite Hf in Hin. destruct Hin.
  - apply in_map_iff in Hr as (u & <- & Hu). cbn.
    rewrite <- Hf in Hu. apply List.filter_In in Hu as [Hu Heq].
    split; [exact Hu | now apply Z.eqb_eq].
Qed.

Lemma join_universities_nonempty us c : join_universities us c <> [].
Proof.
  unfold join_universities.
  destruct (List.filter _ us); discriminate.
Qed.

(** X14: a course by its id.  When the query does not fail,
    [/api/courses/:id] answers 404 exactly when no course has the id, and
    otherwise 200 with that course and, when it has one, a university whose id
    is the course's [universityId]; when the query fails it answers 500.  The
    tables are untouched in every case. *)
Theorem get_course_by_id id w :
  exists r w',
    Catalog.get_course id w = (Ok r, w')
    /\ db w' = db w
    /\ (fails w (length (calls w)) = true -> Catalog.catalog_code r = 500)
    /\ (fails w (length (calls w)) = false ->
        ((forall c, In c (courses (db w)) -> course_id c <> id) ->
         r = {| Catalog.catalog_code := 404;
                Catalog.catalog_body := Catalog.Failure "Course not found" |})
        /\ ((exists c, In c (courses (db w)) /\ course_id c = id) ->
            exists row,
              r = {| Catalog.catalog_code := 200;
                     Catalog.catalog_body := Catalog.CourseBody row |}
              /\ In (course row) (courses (db w))
              /\ course_id (course row) = id
              /\ (forall u, university row = Some u ->
                            In u (universities (db w))
                            /\ university_id u = universityId (course row)))).
Proof.
  unfold Catalog.get_course.
  destruct (fails w (length (calls w))) eqn:Hf.
  - eexists _, _. split.
    { erewrite try_catch_throw; [reflexivity|]. apply bind_throw, query_fails, Hf. }
    split; [reflexivity|]. split; [reflexivity | discriminate].
  - destruct (course_by_id (db w) id) as [row|] eqn:Hrow.
    + exists {| Catalog.catalog_code := 200; Catalog.catalog_body := Catalog.CourseBody row |}.
      eexists. split.
      { apply try_catch_ok. erewrite bind_ok; [|apply select_ok; exact Hf].
        rewrite Hrow. reflexivity. }
      split; [reflexivity|]. split; [discriminate|]. intros _.
      assert (Hin : In row (flat_map (join_universities (universities (db w)))
                              (List.filter (fun c => course_id c =? id) (courses (db w))))).
      { unfold course_by_id in Hrow.
        destruct (flat_map _ _) as [|x xs]; [discriminate|].
        injection Hrow as ->. now left. }
      apply in_flat_map in Hin as (c & Hc & Hr).
      apply List.filter_In in Hc as [Hc Hid]. apply Z.eqb_eq in Hid.
      apply join_universities_In in Hr as [Hcourse Huni].
      split.
      * intros Hnone. exfalso. exact (Hnone c Hc Hid).
      * intros _. exists row. split; [reflexivity|]. rewrite Hcourse.
        split; [exact Hc|]. split; [exact Hid|].
        intros u Hu. rewrite Hu in Huni. exact Huni.
    + exists {| Catalog.catalog_code := 404;
                Catalog.catalog_body := Catalog.Failure "Course not found" |}.
      eexists. split.
      { apply try_catch_ok. erewrite bind_ok; [|apply select_ok; exact Hf].
        rewrite Hrow. reflexivity. }
      split; [reflexivity|]. split; [discriminate|]. intros _.
      split; [reflexivity|].
      intros (c & Hc & Hid). exfalso.
      unfold course_by_id in Hrow.
      assert (Hin : In c (List.filter (fun c => course_id c =? id) (courses (db w)))).
      { apply List.filter_In. split; [exact Hc | now apply Z.eqb_eq]. }
      destruct (List.filter _ (courses (db w))) as [|x xs]; [destruct Hin|].
      cbn [flat_map] in Hrow.
      pose proof (join_universities_nonempty (universities (db w)) x) as Hne.
      destruct (join_universities (universities (db w)) x); [contradiction | discriminate].
Qed.

Section CatalogFacts.

Variable JsNumber : Type.
Variable parseFloat : string -> JsNumber.
Variable Number_toString : JsNumber -> string.
Variable ilike : string -> string -> bool.
Variable numeric_eq : string -> string -> bool.

Let getCourses' := getCourses JsNumber parseFloat Number_toString ilike numeric_eq.
Let band' := band_is JsNumber parseFloat Number_toString numeric_eq.

(** X15: what the course listing returns.  When the query does not fail,
    [/api/courses] answers 200, and a row of the join of courses and
    universities is in the answer exactly when it passes every filter that is
    chosen: the name matches [%search%] under ILIKE, the faculty is the one
    asked for, the level is the one asked for, the band is the score asked
    for.  A filter is not chosen when it is missing, empty, or the entry "All
    Faculties", "All Levels" or "All IELTS Scores" of its list. *)
Theorem get_courses_returns_the_matches q_search q_faculty q_level q_ielts w :
  fails w (length (calls w)) = false ->
  exists rows,
    Catalog.get_courses JsNumber parseFloat Number_toString ilike numeric_eq
      q_search q_faculty q_level q_ielts w
    = (Ok {| Catalog.catalog_code := 200; Catalog.catalog_body := Catalog.CoursesBody rows |},
       record_call GetCourses w)
    /\ forall r,
         In r rows <->
         In r (flat_map (join_universities (universities (db w))) (courses (db w)))
         /\ (forall s, chosen EmptyString q_search = Some s ->
                       ilike (course_name (course r)) ("%" +:+ s +:+ "%") = true)
         /\ (forall f, chosen "All Faculties" q_faculty = Some f -> faculty (course r) = f)
         /\ (forall l, chosen "All Levels" q_level = Some l -> level (course r) = l)
         /\ (forall s, chosen "All IELTS Scores" q_ielts = Some s -> band' s r = true).
Proof.
  intros Hok. eexists. split.
  { unfold Catalog.get_courses. apply try_catch_ok.
    erewrite bind_ok; [|apply select_ok; exact Hok]. reflexivity. }
  intros r. rewrite join_filter, List.filter_In.
  unfold conditions, search_condition, faculty_condition, level_condition, ielts_condition.
  cbn [search filter_faculty filter_level ieltsScore].
  rewrite !forallb_app.
  destruct (chosen EmptyString q_search) as [s|];
    destruct (chosen "All Faculties" q_faculty) as [f|];
    destruct (chosen "All Levels" q_level) as [l|];
    destruct (chosen "All IELTS Scores" q_ielts) as [sc|];
    cbn [forallb andb]; rewrite ?andb_true_r, ?andb_true_iff, ?String.eqb_eq;
    unfold band', band_is;
    (split;
     [ intros (Hin & H); repeat split; try exact Hin;
       try (intros x Hx; first [discriminate | injection Hx as <-; tauto])
     | intros (Hin & H1 & H2 & H3 & H4); split; [exact Hin|];
       repeat split; eauto ]).
Qed.

End CatalogFacts.

Lemma get_courses_returns_the_matches_witness :
  exists rows,
    Catalog.get_courses Builtins.Decimal Builtins.parse_decimal Builtins.decimal_to_string
      Builtins.ilike Builtins.numeric_eq
      (Some "LAW") (Some "All Faculties") (Some "Masters") (Some "7") (Sample.world [])
    = (Ok {| Catalog.catalog_code := 200; Catalog.catalog_body := Catalog.CoursesBody rows |},
       record_call GetCourses (Sample.world []))
    /\ In {| course := Sample.law; university := Some Sample.oxford |} rows
    /\ (In {| course := Sample.engineering; university := Some Sample.oxford |} rows -> False).
Proof.
  destruct (get_courses_returns_the_matches Builtins.Decimal Builtins.parse_decimal
              Builtins.decimal_to_string Builtins.ilike Builtins.numeric_eq
              (Some "LAW") (Some "All Faculties") (Some "Masters") (Some "7")
              (Sample.world []))
    as (rows & Hrun & Hrows); [reflexivity|].
  exists rows. split; [exact Hrun|]. split.
  - apply Hrows. split; [right; left; reflexivity|].
    repeat split; intros x Hx; vm_compute in Hx; try discriminate;
      injection Hx as <-; reflexivity.
  - intros Hin. apply Hrows in Hin as (_ & Hsearch & _).
    specialize (Hsearch "LAW" eq_refl). vm_compute in Hsearch. discriminate.
Defined.

(** ** The inbox *)

Lemma count_app {A} (l l' : list A) : count (l ++ l') = count l + count l'.
Proof. unfold count. rewrite length_app. lia. Qed.

(** X16: a submission that is accepted and whose notification is created
    raises the caller's count of unread notifications by one and leaves the
    count of every other user as it was. *)
Theorem submission_adds_one_unread uid req_body data w :
  let k := length (calls w) in
  let kn := (k + match ins_selectedCourses data with [] => 1 | _ => 2 end)%nat in
  insertApplicationSchema_safeParse (submission uid req_body) = Some data ->
  fails w k = false ->
  user_exists (db w) uid = true ->
  fails w kn = false ->
  exists app w',
    post_applications uid req_body w = (Ok (json (ApplicationBody app)), w')
    /\ Inbox.getUnreadNotificationCount (db w') uid
       = Inbox.getUnreadNotificationCount (db w) uid + 1
    /\ (forall other, other <> uid ->
        Inbox.getUnreadNotificationCount (db w') other
        = Inbox.getUnreadNotificationCount (db w) other).
Proof.
  intros k kn Hparse Hok Huser Hkn.
  destruct (post_applications_accepted uid req_body data w Hparse Hok Huser)
    as (n & w' & Hrun & _ & _ & _ & _ & Hcreated & _).
  destruct (Hcreated Hkn) as (c & Hn & Hc & _ & Hread).
  eexists _, w'. split; [exact Hrun|].
  unfold Inbox.getUnreadNotificationCount. rewrite Hn.
  split; [|intros other Hne]; rewrite List.filter_app, count_app;
    cbn [List.filter]; unfold Inbox.is_unread at 2; rewrite Hc, Hread; cbn [negb].
  - rewrite String.eqb_refl. reflexivity.
  - destruct (String.eqb_spec uid other); [congruence|].
    cbn [andb]. unfold count at 2. cbn [length]. lia.
Qed.

Lemma submission_adds_one_unread_witness :
  exists app w',
    post_applications "alice" Sample.submission_body (Sample.world [])
    = (Ok (json (ApplicationBody app)), w')
    /\ Inbox.getUnreadNotificationCount Sample.tables "alice" = 0
    /\ Inbox.getUnreadNotificationCount (db w') "alice" = 1.
Proof.
  destruct (submission_adds_one_unread "alice" Sample.submission_body Sample.submitted_data
              (Sample.world []))
    as (app & w' & Hrun & Hcount & _).
  - vm_compute. reflexivity.
  - reflexivity.
  - reflexivity.
  - reflexivity.
  - exists app, w'. split; [exact Hrun|]. split; [reflexivity|].
    rewrite Hcount. reflexivity.
Defined.

Lemma unread_after_set_read u id l :
  length (List.filter (fun n => String.eqb (notification_userId n) u && Inbox.is_unread n)
            (map (set_read id) l))
  = length (List.filter (fun n => String.eqb (notification_userId n) u && Inbox.is_unread n
                                  && negb (notification_id n =? id)) l).
Proof.
  induction l as [|n l IH]; [reflexivity|].
  cbn [map List.filter]. unfold set_read at 1 2.
  destruct (Z.eqb_spec (notification_id n) id) as [Hid|Hid].
  - cbn [notification_userId Inbox.is_unread isRead negb]. unfold Inbox.is_unread at 1.
    cbn [isRead negb]. rewrite !andb_false_r. exact IH.
  - cbn [negb]. rewrite andb_true_r.
    destruct (String.eqb (notification_userId n) u && Inbox.is_unread n);
      cbn [length]; now rewrite IH.
Qed.

Lemma filter_split_length {A} (p q : A -> bool) l :
  length (List.filter p l)
  = (length (List.filter (fun x => p x && negb (q x)) l)
     + length (List.filter (fun x => p x && q x) l))%nat.
Proof.
  induction l as [|x l IH]; [reflexivity|].
  cbn [List.filter]. destruct (p x), (q x); cbn [andb negb length]; lia.
Qed.

(** X17: marking an unread notification read lowers the unread count of
    its owner by one and leaves the count of every other user as it was,
    provided the ids of the notifications are distinct.  The handler does not
    ask who the caller is. *)
Theorem mark_read_removes_one_unread n w :
  fails w (length (calls w)) = false ->
  NoDup (map notification_id (notifications (db w))) ->
  In n (notifications (db w)) ->
  Inbox.is_unread n = true ->
  exists w',
    patch_notification_read (notification_id n) w = (Ok (json Success), w')
    /\ Inbox.getUnreadNotificationCount (db w') (notification_userId n)
       = Inbox.getUnreadNotificationCount (db w) (notification_userId n) - 1
    /\ (forall other, other <> notification_userId n ->
        Inbox.getUnreadNotificationCount (db w') other
        = Inbox.getUnreadNotificationCount (db w) other).
Proof.
  intros Hok Hnd Hin Hunread.
  destruct (markNotificationAsRead_ok (notification_id n) w Hok)
    as (w' & Hrun & Hn & _).
  exists w'. split.
  { unfold patch_notification_read. apply try_catch_ok.
    now rewrite (bind_ok _ _ _ _ _ Hrun). }
  assert (Hsame : forall b, In b (notifications (db w)) ->
                            notification_id b = notification_id n -> b = n).
  { intros b Hb Hid. revert Hnd Hin Hb Hid. generalize (notifications (db w)).
    induction l as [|x l IH]; intros Hnd Hin Hb Hid; [destruct Hin|].
    cbn [map] in Hnd. apply NoDup_cons in Hnd as [Hx Hnd].
    destruct Hin as [->|Hin], Hb as [->|Hb]; try reflexivity.
    - exfalso. apply Hx. rewrite <- Hid. apply list_elem_of_In, in_map, Hb.
    - exfalso. apply Hx. rewrite Hid. apply list_elem_of_In, in_map, Hin.
    - now apply IH. }
  unfold Inbox.getUnreadNotificationCount, count. rewrite Hn.
  split.
  - rewrite unread_after_set_read.
    rewrite (filter_split_length
               (fun x => String.eqb (notification_userId x) (notification_userId n)
                         && Inbox.is_unread x)
               (fun x => notification_id x =? notification_id n)
               (notifications (db w))).
    assert (Hone : length (List.filter
                             (fun x => String.eqb (notification_userId x) (notification_userId n)
                                       && Inbox.is_unread x
                                       && (notification_id x =? notification_id n))
                             (notifications (db w))) = 1%nat).
    { clear Hn Hrun.
      revert Hnd Hin Hsame. generalize (notifications (db w)).
      induction l as [|x l IH]; intros Hnd Hin Hsame; [destruct Hin|].
      cbn [map] in Hnd. apply NoDup_cons in Hnd as [Hx Hnd]. cbn [List.filter].
      destruct Hin as [->|Hin].
      - rewrite String.eqb_refl, Hunread, Z.eqb_refl. cbn [andb length]. f_equal.
        rewrite filter_none; [reflexivity|]. intros b Hb.
        destruct (Z.eqb_spec (notification_id b) (notification_id n)) as [Hid|];
          [|now rewrite andb_false_r].
        exfalso. apply Hx. rewrite <- Hid. apply list_elem_of_In, in_map, Hb.
      - destruct (Z.eqb_spec (notification_id x) (notification_id n)) as [Hid|].
        + exfalso. apply Hx. rewrite Hid. apply list_elem_of_In, in_map, Hin.
        + rewrite andb_false_r. apply IH; [exact Hnd | exact Hin|].
          intros b Hb. apply Hsame. now right. }
    cbv beta. rewrite Hone. lia.
  - intros other Hne. rewrite unread_after_set_read. f_equal. f_equal.
    apply List.filter_ext_in. intros b Hb.
    destruct (Z.eqb_spec (notification_id b) (notification_id n)) as [Hid|];
      [|now rewrite andb_true_r].
    rewrite (Hsame b Hb Hid).
    destruct (String.eqb_spec (notification_userId n) other); [congruence | reflexivity].
Qed.

Lemma mark_read_removes_one_unread_witness :
  exists w',
    patch_notification_read 7 (Sample.request_on Cases.inbox) = (Ok (json Success), w')
    /\ Inbox.getUnreadNotificationCount Cases.inbox "alice" = 2
    /\ Inbox.getUnreadNotificationCount (db w') "alice" = 1.
Proof.
  destruct (mark_read_removes_one_unread (Sample.unread 7 "alice" false)
              (Sample.request_on Cases.inbox))
    as (w' & Hrun & Hcount & _).
  - reflexivity.
  - cbn. repeat (apply NoDup_cons; split; [intros H; apply list_elem_of_In in H; cbn in H; intuition discriminate|]).
    apply NoDup_nil_2.
  - right. left. reflexivity.
  - reflexivity.
  - exists w'. split; [exact Hrun|]. split; [reflexivity|].
    change (notification_userId (Sample.unread 7 "alice" false)) with "alice" in Hcount.
    rewrite Hcount. reflexivity.
Defined.

(** ** Listings, newest first *)

From Stdlib Require Import Sorted.

Lemma desc_before_total a b : desc_before a b = false -> desc_before b a = true.
Proof.
  destruct a as [x|], b as [y|]; cbn; try discriminate; try reflexivity.
  intros H. apply Z.leb_gt in H. apply Z.leb_le. lia.
Qed.

Lemma insert_desc_Sorted {A} (key : A -> option Timestamp) x l :
  Sorted (Listing.newest_first key) l ->
  Sorted (Listing.newest_first key) (insert_desc key x l).
Proof.
  induction l as [|y l IH]; intros Hs; cbn [insert_desc].
  - repeat constructor.
  - destruct (desc_before (key x) (key y)) eqn:Hxy.
    + constructor; [exact Hs | constructor; exact Hxy].
    + apply Sorted_inv in Hs as [Hs Hhd].
      constructor; [now apply IH|].
      destruct l as [|z l]; cbn [insert_desc].
      * constructor. now apply desc_before_total.
      * destruct (desc_before (key x) (key z)).
        -- constructor. now apply desc_before_total.
        -- constructor. now apply HdRel_inv in Hhd.
Qed.

Lemma order_by_desc_Sorted {A} (key : A -> option Timestamp) l :
  Sorted (Listing.newest_first key) (order_by_desc key l).
Proof.
  induction l as [|x l IH]; cbn; [constructor|].
  fold (order_by_desc key l). now apply insert_desc_Sorted.
Qed.

(** X18: the notifications listed for a user are exactly the notifications
    of that user, each as often as it is in the table, in an order in which
    no row stands before a newer one (rows without a timestamp first). *)
Theorem user_notifications_newest_first d uid :
  Permutation (Inbox.getUserNotifications d uid)
    (List.filter (fun n => String.eqb (notification_userId n) uid) (notifications d))
  /\ (forall n, In n (Inbox.getUserNotifications d uid) <->
                In n (notifications d) /\ notification_userId n = uid)
  /\ Sorted (Listing.newest_first notification_createdAt) (Inbox.getUserNotifications d uid).
Proof.
  unfold Inbox.getUserNotifications.
  split; [apply order_by_desc_Permutation|].
  split; [|apply order_by_desc_Sorted].
  intros n. rewrite order_by_desc_In, List.filter_In, String.eqb_eq. reflexivity.
Qed.

Lemma courseDetails_In d selected i :
  (exists det, In det (Listing.courseDetails d selected) /\ Listing.detail_id det = i)
  <-> In i selected /\ exists c, In c (courses d) /\ course_id c = i.
Proof.
  unfold Listing.courseDetails. split.
  - intros (det & Hdet & Hid). apply in_map_iff in Hdet as (r & <- & Hr).
    cbn in Hid. apply in_flat_map in Hr as (c & Hc & Hr).
    apply join_universities_course in Hr. rewrite Hr in Hid.
    apply List.filter_In in Hc as [Hc Hsel].
    apply existsb_exists in Hsel as (j & Hj & Heq). apply Z.eqb_eq in Heq.
    split; [congruence|]. exists c. split; [exact Hc | exact Hid].
  - intros (Hsel & c & Hc & Hid).
    pose proof (join_universities_nonempty (universities d) c) as Hne.
    destruct (join_universities (universities d) c) as [|r rs] eqn:Hj; [contradiction|].
    assert (Hr : In r (join_universities (universities d) c)) by (rewrite Hj; now left).
    eexists. split.
    + apply in_map_iff. exists r. split; [reflexivity|].
      apply in_flat_map. exists c. split; [|exact Hr].
      apply List.filter_In. split; [exact Hc|].
      apply existsb_exists. exists i. split; [exact Hsel | now apply Z.eqb_eq].
    + cbn. now rewrite (join_universities_course _ _ _ Hr).
Qed.

(** X19: the applications listed for a user are exactly the applications of
    that user, newest first, and each comes with a detail for a course id
    exactly when the id is among its selected courses and a course has it: a
    selected id that no course has is left out, and an application with no
    selected course has no details. *)
Theorem user_applications_with_details d uid :
  Permutation (map fst (Listing.getUserApplications d uid))
    (List.filter (fun a => String.eqb (application_userId a) uid) (applications d))
  /\ Sorted (Listing.newest_first application_createdAt)
       (map fst (Listing.getUserApplications d uid))
  /\ (forall app details,
        In (app, details) (Listing.getUserApplications d uid) ->
        In app (applications d) /\ application_userId app = uid
        /\ (selectedCourses app = [] -> details = [])
        /\ (forall i,
              (exists det, In det details /\ Listing.detail_id det = i)
              <-> In i (selectedCourses app)
                  /\ exists c, In c (courses d) /\ course_id c = i)).
Proof.
  unfold Listing.getUserApplications.
  set (mine := order_by_desc application_createdAt
                 (List.filter (fun a => String.eqb (application_userId a) uid)
                    (applications d))).
  assert (Hfst : map fst
                   (map (fun app =>
                           match selectedCourses app with
                           | [] => (app, [])
                           | _ :: _ => (app, Listing.courseDetails d (selectedCourses app))
                           end) mine) = mine).
  { rewrite map_map. rewrite <- (map_id mine) at 2. apply map_ext.
    intros a. now destruct (selectedCourses a). }
  assert (Hsame : map (fun app =>
                         match selectedCourses app with
                         | [] => (app, [])
                         | selected => (app, Listing.courseDetails d selected)
                         end) mine
                  = map (fun app =>
                           match selectedCourses app with
                           | [] => (app, [])
                           | _ :: _ => (app, Listing.courseDetails d (selectedCourses app))
                           end) mine).
  { apply map_ext. intros a. now destruct (selectedCourses a). }
  rewrite Hsame, Hfst.
  split; [apply order_by_desc_Permutation|].
  split; [apply order_by_desc_Sorted|].
  intros app details Hin. apply in_map_iff in Hin as (a & Heq & Ha).
  apply order_by_desc_In, List.filter_In in Ha as [Ha Hu]. apply String.eqb_eq in Hu.
  destruct (selectedCourses a) as [|i0 sel] eqn:Hsel; injection Heq as <- <-.
  - split; [exact Ha|]. split; [exact Hu|]. split; [reflexivity|].
    intros i. rewrite Hsel. split.
    + intros (det & [] & _).
    + intros ([] & _).
  - split; [exact Ha|]. split; [exact Hu|]. split; [rewrite Hsel; discriminate|].
    intros i. rewrite Hsel. apply courseDetails_In.
Qed.

Example user_applications_of_alice :
  map (fun row => map Listing.detail_id (snd row))
    (Listing.getUserApplications Cases.portfolio "alice")
  = [[3]; []; [3; 4]].
Proof. reflexivity. Qed.
